(** * Light HAL of the ZUK Z2 Plus: arbitration of the shared RGB LED

    A shallow embedding of [light/Light.cpp].  The service receives
    [setLight(type, state)] requests, keeps the last state of the three
    roles that share the RGB LED, and turns the winning state into text
    written to the sysfs attributes of the LED driver.

    Integers are modelled as [Z] with the wrap-around of the C++ type
    written out ([Int] for [int], [UInt32] for [uint32_t]).  A division
    is an operation that fails on a zero divisor, so the code runs in a
    monad that threads the [Light] object, collects the lines written to
    the streams in order, and may abort. *)

From Stdlib Require Import ZArith List String Ascii Bool Lia Sorted DecimalString.
Import ListNotations.
Open Scope Z_scope.

(** ** Machine integers *)

Module Int.
(** The C++ [int] of the target: 32 bits, two's complement. *)
Definition min_signed : Z := -2147483648.
Definition max_signed : Z := 2147483647.
Definition modulus : Z := 4294967296.

Definition in_range (z : Z) : Prop := min_signed <= z <= max_signed.

Definition wrap (z : Z) : Z := (z + 2147483648) mod modulus - 2147483648.

Definition sub (a b : Z) : Z := wrap (a - b).
Definition mul (a b : Z) : Z := wrap (a * b).
End Int.

Module UInt32.
(** [uint32_t]: arithmetic modulo 2^32. *)
Definition modulus : Z := 4294967296.
Definition max_unsigned : Z := 4294967295.

Definition in_range (z : Z) : Prop := 0 <= z <= max_unsigned.

Definition wrap (z : Z) : Z := z mod modulus.

Definition add (a b : Z) : Z := wrap (a + b).
Definition mul (a b : Z) : Z := wrap (a * b).
Definition shr (a n : Z) : Z := Z.shiftr a n.
Definition and (a b : Z) : Z := Z.land a b.
End UInt32.

(** Integer division as an operation that is undefined on a zero
    divisor; the quotient truncates toward zero, as in C++. *)
Definition idiv (a b : Z) : option Z :=
  if b =? 0 then None else Some (Z.quot a b).

(** [operator<<] and [std::to_string] on an integer: its decimal
    digits, with a leading minus sign when negative. *)
Definition to_string (z : Z) : string := NilZero.string_of_int (Z.to_int z).

(** ** Types of the light HAL interface *)

(** Modelled from the spec: the role enumeration [Type] of the light HAL
    interface, whose declaration is not among the sources.  [Light.cpp]
    names the four roles of the spec; the other enumerators of the
    interface are the roles outside the supported set. *)
Inductive LightType : Set :=
  | BACKLIGHT | KEYBOARD | BUTTONS | BATTERY
  | NOTIFICATIONS | ATTENTION | BLUETOOTH | WIFI.

Definition LightType_eqb (a b : LightType) : bool :=
  match a, b with
  | BACKLIGHT, BACKLIGHT | KEYBOARD, KEYBOARD | BUTTONS, BUTTONS
  | BATTERY, BATTERY | NOTIFICATIONS, NOTIFICATIONS
  | ATTENTION, ATTENTION | BLUETOOTH, BLUETOOTH | WIFI, WIFI => true
  | _, _ => false
  end.

(** Modelled from the spec: the flash mode enumeration [Flash] of the
    interface, whose declaration is not among the sources; [HARDWARE] is
    the value other than [NONE] and [TIMED] that the [default:] label of
    the code catches. *)
Inductive Flash : Set := NONE | TIMED | HARDWARE.

(** Modelled from the spec: the status enumeration of the interface,
    whose declaration is not among the sources; the code returns the
    first two. *)
Inductive Status : Set :=
  | SUCCESS | LIGHT_NOT_SUPPORTED | BRIGHTNESS_NOT_SUPPORTED | UNKNOWN.

(** Modelled from the spec: the request record [LightState] of the
    interface, whose declaration is not among the sources, with the
    fields the code reads: a 32-bit ARGB colour, the flash mode and the
    two flash periods. *)
Record LightState : Set := mkLightState {
  color : Z;
  flashMode : Flash;
  flashOnMs : Z;
  flashOffMs : Z
}.

(** ** Constants of the anonymous namespace *)

Definition RAMP_SIZE : Z := 8.
Definition RAMP_STEP_DURATION : Z := 50.
Definition BRIGHTNESS_RAMP : list Z := [0; 12; 25; 37; 50; 72; 85; 100].
Definition MAX_BRIGHTNESS : Z := 255.

(** ** Pure helpers *)

Definition rgbToBrightness (state : LightState) : Z :=
  let color := UInt32.and (color state) 0x00ffffff in
  UInt32.shr
    (UInt32.add
       (UInt32.add
          (UInt32.mul 77 (UInt32.and (UInt32.shr color 16) 0xff))
          (UInt32.mul 150 (UInt32.and (UInt32.shr color 8) 0xff)))
       (UInt32.mul 29 (UInt32.and color 0xff)))
    8.

Definition isLit (state : LightState) : bool :=
  negb (UInt32.and (color state) 0x00ffffff =? 0).

(** One iteration of the loop of [getScaledDutyPcts]: [acc] holds the
    locals [buf] and [pad]. *)
Definition getScaledDutyPcts_step (brightness : Z)
    (acc : option (string * string)) (i : Z) : option (string * string) :=
  match acc with
  | None => None
  | Some (buf, pad) =>
      match idiv (Int.mul i brightness) 255 with
      | None => None
      | Some q => Some (((buf ++ pad) ++ to_string q)%string, ","%string)
      end
  end.

Definition getScaledDutyPcts (brightness : Z) : option string :=
  match fold_left (getScaledDutyPcts_step brightness) BRIGHTNESS_RAMP
          (Some (EmptyString, EmptyString)) with
  | None => None
  | Some (buf, _) => Some buf
  end.

(** ** Streams and the lines written to them *)

Inductive LedAttr : Set :=
  | brightness | duty_pcts | start_idx | pause_lo | pause_hi
  | ramp_step_ms | blink.

(** An output stream of the service: an attribute file of the LED named
    [name] under /sys/class/leds, the global blink switch of the RGB
    LED, or the brightness file of the panel backlight. *)
Inductive Stream : Set :=
  | LedStream (name : string) (attr : LedAttr)
  | RgbBlink
  | LcdBacklight.

(** One [stream << value << std::endl]: the stream and the text of the
    line.  The line is recorded whether or not the file behind the
    stream could be opened. *)
Record Write : Set := mkWrite { target : Stream; text : string }.

Record Led : Set := mkLed { mIndex : Z; mName : string }.

(** The handlers bound in the constructor of [Light]. *)
Inductive Handler : Set := attnFn | backlightFn | batteryFn | notifFn.

Record Light : Set := mkLight {
  mLcdBacklight_second : Z;
  mRedLed : Led;
  mGreenLed : Led;
  mBlueLed : Led;
  mLights : list (LightType * Handler);
  mAttentionState : LightState;
  mBatteryState : LightState;
  mNotificationState : LightState
}.

(** ** The monad of the member functions

    A member function reads and updates the [Light] object, appends
    lines to streams, and aborts when an arithmetic operation is
    undefined.  Every handler holds [mLock] from its first statement to
    its last, so a call is one step on the object. *)

Definition M (A : Type) : Type := Light -> option (A * Light * list Write).

Definition ret {A : Type} (a : A) : M A := fun l => Some (a, l, []).

Definition bind {A B : Type} (m : M A) (f : A -> M B) : M B :=
  fun l =>
    match m l with
    | None => None
    | Some (a, l1, w1) =>
        match f a l1 with
        | None => None
        | Some (b, l2, w2) => Some (b, l2, w1 ++ w2)
        end
    end.

Notation "x <- m ;; k" := (bind m (fun x => k))
  (at level 61, m at next level, right associativity).
Notation "m ;; k" := (bind m (fun _ => k))
  (at level 61, right associativity).

Definition write (s : Stream) (line : string) : M unit :=
  fun l => Some (tt, l, [mkWrite s line]).

Definition get : M Light := fun l => Some (l, l, []).

Definition put (l' : Light) : M unit := fun _ => Some (tt, l', []).

Definition arith {A : Type} (o : option A) : M A :=
  fun l => match o with
           | None => None
           | Some a => Some (a, l, [])
           end.

(** ** Led *)

Definition Led_setBrightness (self : Led) (value : Z) : M unit :=
  write (LedStream (mName self) blink) (to_string 0) ;;
  write (LedStream (mName self) brightness) (to_string value).

(** Modelled from the spec: [Led::off] is defined in Light.h, which is
    not among the sources; the spec describes it as the steady setting
    with brightness 0 (off, not blinking). *)
Definition Led_off (self : Led) : M unit := Led_setBrightness self 0.

(** The locals [stepDuration] and [pauseHi] of [Led::setBlink] once the
    [if] has run. *)
Definition Led_setBlink_timing (onMs : Z) : option (Z * Z) :=
  let stepDuration := RAMP_STEP_DURATION in
  let pauseHi := Int.sub onMs (Int.mul (Int.mul stepDuration RAMP_SIZE) 2) in
  if Int.mul (Int.mul stepDuration RAMP_SIZE) 2 >? onMs then
    match idiv onMs (Int.mul RAMP_SIZE 2) with
    | None => None
    | Some stepDuration => Some (stepDuration, 0)
    end
  else Some (stepDuration, pauseHi).

Definition Led_setBlink (self : Led) (brightness_ onMs offMs : Z) : M unit :=
  t <- arith (Led_setBlink_timing onMs) ;;
  let '(stepDuration, pauseHi) := t in
  write (LedStream (mName self) start_idx)
        (to_string (Int.mul (mIndex self) RAMP_SIZE)) ;;
  pcts <- arith (getScaledDutyPcts brightness_) ;;
  write (LedStream (mName self) duty_pcts) pcts ;;
  write (LedStream (mName self) pause_lo) (to_string offMs) ;;
  write (LedStream (mName self) pause_hi) (to_string pauseHi) ;;
  write (LedStream (mName self) ramp_step_ms) (to_string stepDuration).

(** ** Light *)

Fixpoint find (type : LightType) (m : list (LightType * Handler))
    : option Handler :=
  match m with
  | [] => None
  | (k, h) :: rest => if LightType_eqb k type then Some h else find type rest
  end.

(** [emplace] keeps an entry that is already there. *)
Definition emplace (kv : LightType * Handler)
    (m : list (LightType * Handler)) : list (LightType * Handler) :=
  match find (fst kv) m with
  | Some _ => m
  | None => m ++ [kv]
  end.

(** Modelled from the spec: the member initialisers of the three stored
    states are in Light.h, which is not among the sources; the spec has
    them off (colour 0) at construction. *)
Definition LightState_off : LightState := mkLightState 0 NONE 0 0.

(** The contents of [mLights] after the four [emplace] calls of the
    constructor. *)
Definition Light_ctor_mLights : list (LightType * Handler) :=
  let mLights0 := emplace (ATTENTION, attnFn) [] in
  let mLights1 := emplace (BACKLIGHT, backlightFn) mLights0 in
  let mLights2 := emplace (BATTERY, batteryFn) mLights1 in
  emplace (NOTIFICATIONS, notifFn) mLights2.

Definition Light_ctor (lcd_backlight_second : Z)
    (red_led green_led blue_led : Led) : Light :=
  mkLight lcd_backlight_second red_led green_led blue_led Light_ctor_mLights
          LightState_off LightState_off LightState_off.

(** The locals [red], [green] and [blue] of [setSpeakerLightLocked]
    when it reaches the first write. *)
Definition setSpeakerLightLocked_rgb (state : LightState)
    : option (Z * Z * Z) :=
  let alpha := UInt32.and (UInt32.shr (color state) 24) 0xff in
  let red := Int.wrap (UInt32.and (UInt32.shr (color state) 16) 0xff) in
  let green := Int.wrap (UInt32.and (UInt32.shr (color state) 8) 0xff) in
  let blue := Int.wrap (UInt32.and (color state) 0xff) in
  if negb (alpha =? 0xff) then
    match idiv (UInt32.mul (UInt32.wrap red) alpha) 0xff with
    | None => None
    | Some red =>
        match idiv (UInt32.mul (UInt32.wrap green) alpha) 0xff with
        | None => None
        | Some green =>
            match idiv (UInt32.mul (UInt32.wrap blue) alpha) 0xff with
            | None => None
            | Some blue =>
                Some (Int.wrap red, Int.wrap green, Int.wrap blue)
            end
        end
    end
  else Some (red, green, blue).

(** The rest of [setSpeakerLightLocked], from the first write on, with
    the values of the locals [red], [green] and [blue]. *)
Definition setSpeakerLightLocked_drive (state : LightState)
    (red green blue : Z) : M unit :=
  self <- get ;;
  write RgbBlink (to_string 0) ;;
  match flashMode state with
  | TIMED =>
      Led_setBlink (mRedLed self) red (flashOnMs state) (flashOffMs state) ;;
      Led_setBlink (mGreenLed self) green (flashOnMs state) (flashOffMs state) ;;
      Led_setBlink (mBlueLed self) blue (flashOnMs state) (flashOffMs state) ;;
      write RgbBlink (to_string 1)
  | _ =>
      Led_setBrightness (mRedLed self) red ;;
      Led_setBrightness (mGreenLed self) green ;;
      Led_setBrightness (mBlueLed self) blue
  end.

Definition setSpeakerLightLocked (state : LightState) : M unit :=
  rgb <- arith (setSpeakerLightLocked_rgb state) ;;
  let '(red, green, blue) := rgb in
  setSpeakerLightLocked_drive state red green blue.

Definition setSpeakerBatteryLightLocked : M unit :=
  self <- get ;;
  if isLit (mNotificationState self) then
    setSpeakerLightLocked (mNotificationState self)
  else if isLit (mAttentionState self) then
    setSpeakerLightLocked (mAttentionState self)
  else if isLit (mBatteryState self) then
    setSpeakerLightLocked (mBatteryState self)
  else
    Led_off (mRedLed self) ;;
    Led_off (mGreenLed self) ;;
    Led_off (mBlueLed self).

Definition set_mAttentionState (state : LightState) (l : Light) : Light :=
  mkLight (mLcdBacklight_second l) (mRedLed l) (mGreenLed l) (mBlueLed l)
          (mLights l) state (mBatteryState l) (mNotificationState l).

Definition set_mBatteryState (state : LightState) (l : Light) : Light :=
  mkLight (mLcdBacklight_second l) (mRedLed l) (mGreenLed l) (mBlueLed l)
          (mLights l) (mAttentionState l) state (mNotificationState l).

Definition set_mNotificationState (state : LightState) (l : Light) : Light :=
  mkLight (mLcdBacklight_second l) (mRedLed l) (mGreenLed l) (mBlueLed l)
          (mLights l) (mAttentionState l) (mBatteryState l) state.

Definition setAttentionLight (state : LightState) : M unit :=
  self <- get ;;
  put (set_mAttentionState state self) ;;
  setSpeakerBatteryLightLocked.

Definition setLcdBacklight (state : LightState) : M unit :=
  self <- get ;;
  let brightness_ := rgbToBrightness state in
  scaled <- arith
    (if negb (mLcdBacklight_second self =? UInt32.wrap MAX_BRIGHTNESS) then
       idiv (UInt32.mul brightness_ (mLcdBacklight_second self))
            (UInt32.wrap MAX_BRIGHTNESS)
     else Some brightness_) ;;
  write LcdBacklight (to_string scaled).

Definition setBatteryLight (state : LightState) : M unit :=
  self <- get ;;
  put (set_mBatteryState state self) ;;
  setSpeakerBatteryLightLocked.

Definition setNotificationLight (state : LightState) : M unit :=
  self <- get ;;
  put (set_mNotificationState state self) ;;
  setSpeakerBatteryLightLocked.

(** Calling the function object stored in [mLights]. *)
Definition call (h : Handler) (state : LightState) : M unit :=
  match h with
  | attnFn => setAttentionLight state
  | backlightFn => setLcdBacklight state
  | batteryFn => setBatteryLight state
  | notifFn => setNotificationLight state
  end.

Definition setLight (type : LightType) (state : LightState) : M Status :=
  self <- get ;;
  match find type (mLights self) with
  | None => ret LIGHT_NOT_SUPPORTED
  | Some h => call h state ;; ret SUCCESS
  end.

(** ** The remaining member functions *)

Definition kSysLedPath : string := "/sys/class/leds".

(** The last component of the file that the constructor of [Led] opens
    for each of its seven streams. *)
Definition attr_file (attr : LedAttr) : string :=
  match attr with
  | brightness => "/brightness"
  | duty_pcts => "/duty_pcts"
  | start_idx => "/start_idx"
  | pause_lo => "/pause_lo"
  | pause_hi => "/pause_hi"
  | ramp_step_ms => "/ramp_step_ms"
  | blink => "/blink"
  end.

(** The file behind the stream [LedStream name attr]: the local [path]
    of the constructor followed by the name of the attribute. *)
Definition Led_ctor_path (name : string) (attr : LedAttr) : string :=
  let path := ((kSysLedPath ++ "/") ++ name)%string in
  (path ++ attr_file attr)%string.

Definition Led_ctor (index : Z) (name : string) : Led := mkLed index name.

(** What the seven streams of a [Led] convert to in a boolean context:
    [true] for a stream that is good, so that [!stream] is its
    negation. *)
Record LedStreams : Set := mkLedStreams {
  mBrightness : bool;
  mDutyPcts : bool;
  mStartIdx : bool;
  mPauseLo : bool;
  mPauseHi : bool;
  mRampStepMs : bool;
  mBlink : bool
}.

Definition Led_operator_bool (self : LedStreams) : bool :=
  mBrightness self && mDutyPcts self && mStartIdx self && mPauseLo self
  && mPauseHi self && mRampStepMs self && mBlink self.

Definition Led_operator_not (self : LedStreams) : bool :=
  negb (mBrightness self) || negb (mDutyPcts self) || negb (mStartIdx self)
  || negb (mPauseLo self) || negb (mPauseHi self) || negb (mRampStepMs self)
  || negb (mBlink self).

(** [getSupportedTypes]: the result is the vector handed to the
    callback, filled by one [push_back] per entry of [mLights]. *)
Definition getSupportedTypes : M (list LightType) :=
  self <- get ;;
  ret (fold_left (fun types light => types ++ [fst light]) (mLights self) []).

(** * Vocabulary of the statements *)

(** Byte [k] of a colour, counted from the least significant one. *)
Definition byte_of (c k : Z) : Z := (c / 2 ^ (8 * k)) mod 256.

(** A colour is lit when its lower 24 bits are not all zero. *)
Definition lit24 (c : Z) : bool := negb (c mod 16777216 =? 0).

(** The channel values of a colour: alpha dims red, green and blue
    unless it is 255. *)
Definition scaled_rgb (c : Z) : Z * Z * Z :=
  let alpha := byte_of c 3 in
  let red := byte_of c 2 in
  let green := byte_of c 1 in
  let blue := byte_of c 0 in
  if alpha =? 255 then (red, green, blue)
  else (red * alpha / 255, green * alpha / 255, blue * alpha / 255).

(** The luma of a colour and the panel level derived from it. *)
Definition luma (c : Z) : Z :=
  Z.shiftr (77 * byte_of c 2 + 150 * byte_of c 1 + 29 * byte_of c 0) 8.

Definition backlight_level (c maxBrightness : Z) : Z :=
  if maxBrightness =? 255 then luma c else luma c * maxBrightness / 255.

(** Rounding a quotient to the nearest integer, and the duty-cycle list
    with rounded and with truncated entries. *)
Definition round_div (n d : Z) : Z := (2 * n + d) / (2 * d).

Definition duty_pcts_rounded (b : Z) : string :=
  String.concat "," (map (fun c => to_string (round_div (c * b) 255))
                         BRIGHTNESS_RAMP).

Definition duty_pcts_truncated (b : Z) : string :=
  String.concat "," (map (fun c => to_string (c * b / 255)) BRIGHTNESS_RAMP).

(** The roles registered by the constructor. *)
Definition supported (type : LightType) : bool :=
  match type with
  | ATTENTION | BACKLIGHT | BATTERY | NOTIFICATIONS => true
  | _ => false
  end.

(** The lines each member function writes, in order. *)
Definition steady_lines (self : Led) (value : Z) : list Write :=
  [ mkWrite (LedStream (mName self) blink) "0";
    mkWrite (LedStream (mName self) brightness) (to_string value) ].

Definition duty_line (brightness_ : Z) : string :=
  String.concat ","
    (map (fun i => to_string (Z.quot (Int.mul i brightness_) 255))
         BRIGHTNESS_RAMP).

Definition blink_lines (self : Led) (brightness_ onMs offMs : Z)
    : list Write :=
  [ mkWrite (LedStream (mName self) start_idx)
            (to_string (Int.mul (mIndex self) 8));
    mkWrite (LedStream (mName self) duty_pcts) (duty_line brightness_);
    mkWrite (LedStream (mName self) pause_lo) (to_string offMs);
    mkWrite (LedStream (mName self) pause_hi)
            (to_string (if 800 >? onMs then 0 else Int.wrap (onMs - 800)));
    mkWrite (LedStream (mName self) ramp_step_ms)
            (to_string (if 800 >? onMs then Z.quot onMs 16 else 50)) ].

Definition drive_lines (self : Light) (state : LightState)
    (red green blue : Z) : list Write :=
  mkWrite RgbBlink "0" ::
  match flashMode state with
  | TIMED =>
      blink_lines (mRedLed self) red (flashOnMs state) (flashOffMs state)
      ++ blink_lines (mGreenLed self) green (flashOnMs state) (flashOffMs state)
      ++ blink_lines (mBlueLed self) blue (flashOnMs state) (flashOffMs state)
      ++ [mkWrite RgbBlink "1"]
  | _ =>
      steady_lines (mRedLed self) red
      ++ steady_lines (mGreenLed self) green
      ++ steady_lines (mBlueLed self) blue
  end.

Definition applied_lines (self : Light) (state : LightState) : list Write :=
  let '(red, green, blue) := scaled_rgb (color state) in
  drive_lines self state red green blue.

Definition off_lines (self : Light) : list Write :=
  steady_lines (mRedLed self) 0
  ++ steady_lines (mGreenLed self) 0
  ++ steady_lines (mBlueLed self) 0.

(** A sample object: the three LEDs of the device and a panel whose
    maximum is [lcd_max]. *)
Definition sample_light (lcd_max : Z) : Light :=
  Light_ctor lcd_max (mkLed 0 "red") (mkLed 1 "green") (mkLed 2 "blue").

(** The roles that share the RGB LED, the update of the stored state
    that a request for such a role makes, and the lines that the
    arbitration writes for an object. *)
Definition shares_led (type : LightType) : bool :=
  match type with
  | ATTENTION | BATTERY | NOTIFICATIONS => true
  | _ => false
  end.

Definition store (type : LightType) (state : LightState) (l : Light) : Light :=
  match type with
  | ATTENTION => set_mAttentionState state l
  | BATTERY => set_mBatteryState state l
  | NOTIFICATIONS => set_mNotificationState state l
  | _ => l
  end.

Definition effective_lines (l : Light) : list Write :=
  if lit24 (color (mNotificationState l)) then
    applied_lines l (mNotificationState l)
  else if lit24 (color (mAttentionState l)) then
    applied_lines l (mAttentionState l)
  else if lit24 (color (mBatteryState l)) then
    applied_lines l (mBatteryState l)
  else off_lines l.

(** A grey colour: the same level in red, green and blue. *)
Definition grey (alpha level : Z) : Z :=
  alpha * 16777216 + level * 65536 + level * 256 + level.

(** The entries of the duty-cycle list as numbers. *)
Definition duty_values (b : Z) : list Z :=
  map (fun c => c * b / 255) BRIGHTNESS_RAMP.

(** A stream of one of the three LEDs of the object, or the blink
    switch. *)
Definition rgb_target (l : Light) (s : Stream) : Prop :=
  s = RgbBlink \/
  exists attr,
    s = LedStream (mName (mRedLed l)) attr \/
    s = LedStream (mName (mGreenLed l)) attr \/
    s = LedStream (mName (mBlueLed l)) attr.

(** Whether a string contains the separator of path components. *)
Fixpoint has_slash (s : string) : bool :=
  match s with
  | EmptyString => false
  | String c rest => Ascii.eqb c "/" || has_slash rest
  end.

(** * Runs on concrete requests *)

(** A red notification at half brightness that blinks 1000 ms on and
    500 ms off: the three ramps are loaded, then the switch is set. *)
Example notification_blink_trace :
  setLight NOTIFICATIONS (mkLightState 0x80FF0000 TIMED 1000 500)
           (sample_light 255) =
  Some (SUCCESS,
        set_mNotificationState (mkLightState 0x80FF0000 TIMED 1000 500)
                               (sample_light 255),
        [ mkWrite RgbBlink "0";
          mkWrite (LedStream "red" start_idx) "0";
          mkWrite (LedStream "red" duty_pcts) "0,6,12,18,25,36,42,50";
          mkWrite (LedStream "red" pause_lo) "500";
          mkWrite (LedStream "red" pause_hi) "200";
          mkWrite (LedStream "red" ramp_step_ms) "50";
          mkWrite (LedStream "green" start_idx) "8";
          mkWrite (LedStream "green" duty_pcts) "0,0,0,0,0,0,0,0";
          mkWrite (LedStream "green" pause_lo) "500";
          mkWrite (LedStream "green" pause_hi) "200";
          mkWrite (LedStream "green" ramp_step_ms) "50";
          mkWrite (LedStream "blue" start_idx) "16";
          mkWrite (LedStream "blue" duty_pcts) "0,0,0,0,0,0,0,0";
          mkWrite (LedStream "blue" pause_lo) "500";
          mkWrite (LedStream "blue" pause_hi) "200";
          mkWrite (LedStream "blue" ramp_step_ms) "50";
          mkWrite RgbBlink "1" ]).
Proof. vm_compute. reflexivity. Qed.

(** A steady green battery light. *)
Example battery_steady_trace :
  setLight BATTERY (mkLightState 0xFF00FF00 NONE 0 0) (sample_light 255) =
  Some (SUCCESS,
        set_mBatteryState (mkLightState 0xFF00FF00 NONE 0 0)
                          (sample_light 255),
        [ mkWrite RgbBlink "0";
          mkWrite (LedStream "red" blink) "0";
          mkWrite (LedStream "red" brightness) "0";
          mkWrite (LedStream "green" blink) "0";
          mkWrite (LedStream "green" brightness) "255";
          mkWrite (LedStream "blue" blink) "0";
          mkWrite (LedStream "blue" brightness) "0" ]).
Proof. vm_compute. reflexivity. Qed.

(** Clearing the only stored state turns the three channels off. *)
Example attention_off_trace :
  setLight ATTENTION LightState_off (sample_light 255) =
  Some (SUCCESS, sample_light 255,
        [ mkWrite (LedStream "red" blink) "0";
          mkWrite (LedStream "red" brightness) "0";
          mkWrite (LedStream "green" blink) "0";
          mkWrite (LedStream "green" brightness) "0";
          mkWrite (LedStream "blue" blink) "0";
          mkWrite (LedStream "blue" brightness) "0" ]).
Proof. vm_compute. reflexivity. Qed.

(** * Auxiliary lemmas *)

Ltac int_range :=
  unfold Int.in_range, Int.min_signed, Int.max_signed in *;
  cbn [mIndex] in *; nia.

Ltac u32_range :=
  unfold UInt32.in_range, UInt32.max_unsigned in *; nia.

Lemma idiv_nonzero (a b : Z) : b <> 0 -> idiv a b = Some (Z.quot a b).
Proof.
  intros H. unfold idiv. destruct (Z.eqb_spec b 0); [contradiction | reflexivity].
Qed.

Lemma Int_wrap_in_range (z : Z) : Int.in_range z -> Int.wrap z = z.
Proof.
  unfold Int.in_range, Int.wrap, Int.min_signed, Int.max_signed, Int.modulus.
  intros H. rewrite Z.mod_small by lia. lia.
Qed.

Lemma UInt32_wrap_in_range (z : Z) : UInt32.in_range z -> UInt32.wrap z = z.
Proof.
  unfold UInt32.in_range, UInt32.wrap, UInt32.max_unsigned, UInt32.modulus.
  intros H. apply Z.mod_small. lia.
Qed.

Lemma byte_of_range (c k : Z) : 0 <= byte_of c k <= 255.
Proof.
  unfold byte_of. pose proof (Z.mod_pos_bound (c / 2 ^ (8 * k)) 256 eq_refl). lia.
Qed.

Lemma and_shr_byte (c k : Z) :
  0 <= k -> UInt32.and (UInt32.shr c (8 * k)) 255 = byte_of c k.
Proof.
  intros Hk. unfold UInt32.and, UInt32.shr, byte_of.
  rewrite Z.shiftr_div_pow2 by lia.
  change 255 with (Z.ones 8). rewrite Z.land_ones by lia. reflexivity.
Qed.

Lemma and_shr24 (c : Z) : UInt32.and (UInt32.shr c 24) 255 = byte_of c 3.
Proof. exact (and_shr_byte c 3 ltac:(lia)). Qed.

Lemma and_shr16 (c : Z) : UInt32.and (UInt32.shr c 16) 255 = byte_of c 2.
Proof. exact (and_shr_byte c 2 ltac:(lia)). Qed.

Lemma and_shr8 (c : Z) : UInt32.and (UInt32.shr c 8) 255 = byte_of c 1.
Proof. exact (and_shr_byte c 1 ltac:(lia)). Qed.

Lemma and_byte0 (c : Z) : UInt32.and c 255 = byte_of c 0.
Proof.
  unfold UInt32.and, byte_of. change 255 with (Z.ones 8).
  rewrite Z.land_ones by lia. change (2 ^ (8 * 0)) with 1.
  now rewrite Z.div_1_r.
Qed.

Lemma low24_mod (c : Z) : UInt32.and c 16777215 = c mod 16777216.
Proof.
  unfold UInt32.and. change 16777215 with (Z.ones 24).
  now rewrite Z.land_ones by lia.
Qed.

Lemma and_shr_low24 (c n : Z) :
  n = 0 \/ n = 8 \/ n = 16 ->
  UInt32.and (UInt32.shr (UInt32.and c 16777215) n) 255 =
  UInt32.and (UInt32.shr c n) 255.
Proof.
  unfold UInt32.and, UInt32.shr. intros Hn.
  rewrite Z.shiftr_land, <- Z.land_assoc.
  destruct Hn as [-> | [-> | ->]]; reflexivity.
Qed.

Lemma rgbToBrightness_eq (s : LightState) :
  rgbToBrightness s = luma (color s).
Proof.
  unfold rgbToBrightness, luma.
  rewrite (and_shr_low24 _ 16), (and_shr_low24 _ 8) by auto.
  replace (UInt32.and (UInt32.and (color s) 16777215) 255)
    with (UInt32.and (UInt32.shr (UInt32.and (color s) 16777215) 0) 255)
    by reflexivity.
  rewrite (and_shr_low24 _ 0) by auto.
  change (UInt32.shr (color s) 0) with (color s).
  rewrite and_shr16, and_shr8, and_byte0.
  pose proof (byte_of_range (color s) 2).
  pose proof (byte_of_range (color s) 1).
  pose proof (byte_of_range (color s) 0).
  unfold UInt32.add, UInt32.mul.
  assert (U : forall z, 0 <= z <= 65280 -> UInt32.wrap z = z).
  { intros z Hz. apply UInt32_wrap_in_range.
    unfold UInt32.in_range, UInt32.max_unsigned. lia. }
  rewrite (U (77 * _)), (U (150 * _)), (U (29 * _)) by lia.
  rewrite (U (77 * _ + 150 * _)) by lia. rewrite U by lia.
  reflexivity.
Qed.

Lemma luma_range (c : Z) : 0 <= luma c <= 255.
Proof.
  unfold luma. rewrite Z.shiftr_div_pow2 by lia. change (2 ^ 8) with 256.
  pose proof (byte_of_range c 2). pose proof (byte_of_range c 1).
  pose proof (byte_of_range c 0).
  split; [apply Z.div_pos; lia | apply Z.div_le_upper_bound; lia].
Qed.

Lemma scale_channel (x a : Z) :
  0 <= x <= 255 -> 0 <= a <= 255 ->
  idiv (UInt32.mul (UInt32.wrap (Int.wrap x)) a) 255 = Some (x * a / 255)
  /\ Int.wrap (x * a / 255) = x * a / 255.
Proof.
  intros Hx Ha.
  assert (Hp : 0 <= x * a <= 65025) by nia.
  assert (Hq : 0 <= x * a / 255 <= 255).
  { split; [apply Z.div_pos; lia | apply Z.div_le_upper_bound; lia]. }
  rewrite (Int_wrap_in_range x)
    by int_range.
  rewrite (UInt32_wrap_in_range x)
    by u32_range.
  unfold UInt32.mul.
  rewrite UInt32_wrap_in_range
    by u32_range.
  rewrite idiv_nonzero by discriminate.
  rewrite Z.quot_div_nonneg by lia.
  split; [reflexivity |].
  apply Int_wrap_in_range.
  unfold Int.in_range, Int.min_signed, Int.max_signed; lia.
Qed.

Lemma setSpeakerLightLocked_rgb_eq (s : LightState) :
  setSpeakerLightLocked_rgb s = Some (scaled_rgb (color s)).
Proof.
  unfold setSpeakerLightLocked_rgb, scaled_rgb.
  rewrite and_shr24, and_shr16, and_shr8, and_byte0.
  pose proof (byte_of_range (color s) 3) as Ha.
  pose proof (byte_of_range (color s) 2) as Hr.
  pose proof (byte_of_range (color s) 1) as Hg.
  pose proof (byte_of_range (color s) 0) as Hb.
  destruct (byte_of (color s) 3 =? 255); cbn [negb].
  - rewrite !Int_wrap_in_range
      by int_range.
    reflexivity.
  - destruct (scale_channel _ _ Hr Ha) as [-> ->].
    destruct (scale_channel _ _ Hg Ha) as [-> ->].
    destruct (scale_channel _ _ Hb Ha) as [-> ->].
    reflexivity.
Qed.

Lemma Led_setBrightness_run (self : Led) (value : Z) (l : Light) :
  Led_setBrightness self value l = Some (tt, l, steady_lines self value).
Proof. reflexivity. Qed.

Lemma string_append_assoc (a b c : string) :
  ((a ++ b) ++ c = a ++ (b ++ c))%string.
Proof.
  induction a as [|ch a IH]; cbn [String.append].
  - reflexivity.
  - now rewrite IH.
Qed.

Lemma getScaledDutyPcts_eq (b : Z) : getScaledDutyPcts b = Some (duty_line b).
Proof.
  unfold getScaledDutyPcts, duty_line, BRIGHTNESS_RAMP.
  cbn [fold_left getScaledDutyPcts_step map String.concat].
  unfold getScaledDutyPcts_step.
  rewrite !idiv_nonzero by discriminate.
  cbn [String.append].
  rewrite !string_append_assoc. reflexivity.
Qed.

Lemma Led_setBlink_timing_eq (onMs : Z) :
  Led_setBlink_timing onMs =
  Some (if 800 >? onMs then (Z.quot onMs 16, 0) else (50, Int.wrap (onMs - 800))).
Proof.
  unfold Led_setBlink_timing.
  change (Int.mul (Int.mul RAMP_STEP_DURATION RAMP_SIZE) 2) with 800.
  change (Int.mul RAMP_SIZE 2) with 16.
  rewrite idiv_nonzero by discriminate.
  destruct (800 >? onMs); reflexivity.
Qed.

Lemma Led_setBlink_run (self : Led) (b onMs offMs : Z) (l : Light) :
  Led_setBlink self b onMs offMs l = Some (tt, l, blink_lines self b onMs offMs).
Proof.
  unfold Led_setBlink, bind, arith, blink_lines.
  rewrite Led_setBlink_timing_eq, getScaledDutyPcts_eq.
  destruct (800 >? onMs); reflexivity.
Qed.

Lemma setSpeakerLightLocked_drive_run (s : LightState) (r g b : Z) (l : Light) :
  setSpeakerLightLocked_drive s r g b l = Some (tt, l, drive_lines l s r g b).
Proof.
  unfold setSpeakerLightLocked_drive, drive_lines, bind, get.
  cbn [write].
  destruct (flashMode s).
  - rewrite !Led_setBrightness_run. reflexivity.
  - rewrite !Led_setBlink_run. reflexivity.
  - rewrite !Led_setBrightness_run. reflexivity.
Qed.

Lemma setSpeakerLightLocked_run (s : LightState) (l : Light) :
  setSpeakerLightLocked s l = Some (tt, l, applied_lines l s).
Proof.
  unfold setSpeakerLightLocked, applied_lines, bind, arith.
  rewrite setSpeakerLightLocked_rgb_eq.
  destruct (scaled_rgb (color s)) as [[r g] b].
  rewrite setSpeakerLightLocked_drive_run. reflexivity.
Qed.

Lemma isLit_lit24 (s : LightState) : isLit s = lit24 (color s).
Proof. unfold isLit, lit24. now rewrite low24_mod. Qed.

Lemma setSpeakerBatteryLightLocked_run (l : Light) :
  setSpeakerBatteryLightLocked l =
  Some (tt, l,
        if lit24 (color (mNotificationState l)) then
          applied_lines l (mNotificationState l)
        else if lit24 (color (mAttentionState l)) then
          applied_lines l (mAttentionState l)
        else if lit24 (color (mBatteryState l)) then
          applied_lines l (mBatteryState l)
        else off_lines l).
Proof.
  unfold setSpeakerBatteryLightLocked, bind, get.
  rewrite !isLit_lit24.
  destruct (lit24 (color (mNotificationState l)));
    [now rewrite setSpeakerLightLocked_run |].
  destruct (lit24 (color (mAttentionState l)));
    [now rewrite setSpeakerLightLocked_run |].
  destruct (lit24 (color (mBatteryState l)));
    [now rewrite setSpeakerLightLocked_run |].
  reflexivity.
Qed.

(** * The role arbitration of the shared LED *)

(** C1.  A stored state is lit exactly when the lower 24 bits of its
    colour are not zero.  Re-evaluating the shared LED applies the
    NOTIFICATIONS state when it is lit, else the ATTENTION state when it
    is lit, else the BATTERY state when it is lit; when none is lit each
    of the three channels gets blink 0 and brightness 0, red first, then
    green, then blue.  Applying a state always completes, leaves the
    object as it is and writes the lines of that state. *)
Theorem arbitration_priority_order (l : Light) :
  (forall s, isLit s = true <-> color s mod 16777216 <> 0) /\
  (forall s, setSpeakerLightLocked s l = Some (tt, l, applied_lines l s)) /\
  setSpeakerBatteryLightLocked l =
    (if lit24 (color (mNotificationState l)) then
       setSpeakerLightLocked (mNotificationState l) l
     else if lit24 (color (mAttentionState l)) then
       setSpeakerLightLocked (mAttentionState l) l
     else if lit24 (color (mBatteryState l)) then
       setSpeakerLightLocked (mBatteryState l) l
     else
       Some (tt, l,
             [ mkWrite (LedStream (mName (mRedLed l)) blink) "0";
               mkWrite (LedStream (mName (mRedLed l)) brightness) "0";
               mkWrite (LedStream (mName (mGreenLed l)) blink) "0";
               mkWrite (LedStream (mName (mGreenLed l)) brightness) "0";
               mkWrite (LedStream (mName (mBlueLed l)) blink) "0";
               mkWrite (LedStream (mName (mBlueLed l)) brightness) "0" ])).
Proof.
  split; [| split].
  - intros s. rewrite isLit_lit24. unfold lit24.
    destruct (Z.eqb_spec (color s mod 16777216) 0) as [E | E]; cbn [negb].
    + split; [discriminate | intros H; now elim H].
    + split; [intros _; exact E | reflexivity].
  - intros s. apply setSpeakerLightLocked_run.
  - rewrite setSpeakerBatteryLightLocked_run.
    rewrite !setSpeakerLightLocked_run.
    destruct (lit24 (color (mNotificationState l))); [reflexivity |].
    destruct (lit24 (color (mAttentionState l))); [reflexivity |].
    destruct (lit24 (color (mBatteryState l))); reflexivity.
Qed.

(** * The ramp of a blinking channel *)

(** C2.  For an on-time and a start index that are values of [int],
    [setBlink] on the channel with index [i] writes, in this order, the
    start index [i * 8], the duty-cycle list, pause-low [offMs],
    pause-high and the step duration: with [onMs >= 800] the step is 50
    and pause-high is [onMs - 800], otherwise the step is [onMs / 16]
    (the quotient of C++, truncated toward zero) and pause-high is 0.
    An on-time of 400 gives step 25 and pause-high 0; an on-time of 1000
    gives step 50 and pause-high 200. *)
Theorem setBlink_ramp_encoding
    (self : Led) (b onMs offMs : Z) (l : Light) :
  Int.in_range onMs ->
  Int.in_range (mIndex self * 8) ->
  (exists pcts,
     Led_setBlink self b onMs offMs l =
     Some (tt, l,
           [ mkWrite (LedStream (mName self) start_idx)
                     (to_string (mIndex self * 8));
             mkWrite (LedStream (mName self) duty_pcts) pcts;
             mkWrite (LedStream (mName self) pause_lo) (to_string offMs);
             mkWrite (LedStream (mName self) pause_hi)
                     (to_string (if 800 <=? onMs then onMs - 800 else 0));
             mkWrite (LedStream (mName self) ramp_step_ms)
                     (to_string (if 800 <=? onMs then 50
                                 else Z.quot onMs 16)) ]))
  /\ Led_setBlink_timing 400 = Some (25, 0)
  /\ Led_setBlink_timing 1000 = Some (50, 200).
Proof.
  intros Hon Hidx. split; [| split; reflexivity].
  exists (duty_line b).
  rewrite Led_setBlink_run. unfold blink_lines, Int.mul.
  rewrite (Int_wrap_in_range (mIndex self * 8)) by exact Hidx.
  destruct (Z.gtb_spec 800 onMs) as [Hlt | Hge];
    destruct (Z.leb_spec 800 onMs) as [Hge' | Hlt']; try lia.
  - reflexivity.
  - rewrite Int_wrap_in_range; [reflexivity |].
    unfold Int.in_range, Int.min_signed, Int.max_signed in *. lia.
Qed.

Lemma setBlink_ramp_encoding_witness :
  Int.in_range 400 /\ Int.in_range (mIndex (mkLed 1 "green") * 8) /\
  (exists pcts,
     Led_setBlink (mkLed 1 "green") 255 400 300 (sample_light 255) =
     Some (tt, sample_light 255,
           [ mkWrite (LedStream "green" start_idx) "8";
             mkWrite (LedStream "green" duty_pcts) pcts;
             mkWrite (LedStream "green" pause_lo) "300";
             mkWrite (LedStream "green" pause_hi) "0";
             mkWrite (LedStream "green" ramp_step_ms) "25" ])).
Proof.
  assert (H1 : Int.in_range 400)
    by int_range.
  assert (H2 : Int.in_range (mIndex (mkLed 1 "green") * 8))
    by int_range.
  split; [exact H1 | split; [exact H2 |]].
  exact (proj1 (setBlink_ramp_encoding (mkLed 1 "green") 255 400 300
                  (sample_light 255) H1 H2)).
Defined.

(** * The colour of the shared LED *)

(** C3.  For every colour, alpha is byte 3 and red, green and blue are
    bytes 2, 1 and 0; with alpha other than 255 each channel value is
    [channel * alpha / 255], truncated, and with alpha 255 the channel
    values are used as they are.  These are the values that
    [setSpeakerLightLocked] drives the channels with.  Colour
    0x80FF0000 gives red 128, green 0 and blue 0; colour 0xFFFF0000
    gives red 255. *)
Theorem alpha_scales_channels (s : LightState) (l : Light) :
  setSpeakerLightLocked_rgb s = Some (scaled_rgb (color s)) /\
  setSpeakerLightLocked s l =
    (let '(red, green, blue) := scaled_rgb (color s) in
     setSpeakerLightLocked_drive s red green blue l) /\
  scaled_rgb 0x80FF0000 = (128, 0, 0) /\
  scaled_rgb 0xFFFF0000 = (255, 0, 0).
Proof.
  split; [apply setSpeakerLightLocked_rgb_eq |].
  split; [| split; reflexivity].
  rewrite setSpeakerLightLocked_run. unfold applied_lines.
  destruct (scaled_rgb (color s)) as [[r g] b].
  now rewrite setSpeakerLightLocked_drive_run.
Qed.

(** * The panel backlight *)

Lemma setLcdBacklight_run (s : LightState) (l : Light) :
  setLcdBacklight s l =
  Some (tt, l,
        [ mkWrite LcdBacklight
            (to_string
               (if mLcdBacklight_second l =? 255 then luma (color s)
                else Z.quot (UInt32.mul (luma (color s))
                                        (mLcdBacklight_second l)) 255)) ]).
Proof.
  unfold setLcdBacklight, bind, get, arith.
  rewrite rgbToBrightness_eq.
  change (UInt32.wrap MAX_BRIGHTNESS) with 255.
  destruct (mLcdBacklight_second l =? 255); cbn [negb].
  - reflexivity.
  - rewrite idiv_nonzero by discriminate. reflexivity.
Qed.

(** C4.  The backlight path is meant to scale linearly, as its comment
    says and as [brightness * maxBrightness / 255] is written, but the
    product is taken in [uint32_t] and nothing guards it.  With a panel
    maximum of 16843010 and colour 0x00FFFFFF the derived brightness is
    255, the product 4294967550 wraps to 254, and the line written is 0,
    where [brightness * maxBrightness / 255], truncated, is 16843010. *)
Theorem backlight_rescale_wraps :
  rgbToBrightness (mkLightState 0x00FFFFFF NONE 0 0) = 255 /\
  UInt32.mul 255 16843010 = 254 /\
  setLcdBacklight (mkLightState 0x00FFFFFF NONE 0 0) (sample_light 16843010)
    = Some (tt, sample_light 16843010, [mkWrite LcdBacklight "0"]) /\
  to_string (backlight_level 0x00FFFFFF 16843010) = "16843010"%string /\
  setLcdBacklight (mkLightState 0x00FFFFFF NONE 0 0) (sample_light 16843010)
    <> Some (tt, sample_light 16843010,
             [mkWrite LcdBacklight
                (to_string (backlight_level 0x00FFFFFF 16843010))]).
Proof.
  split; [vm_compute; reflexivity |].
  split; [vm_compute; reflexivity |].
  split; [vm_compute; reflexivity |].
  split; [vm_compute; reflexivity |].
  intros H. vm_compute in H. discriminate H.
Qed.

(** Where the product of the luma and the panel maximum fits in 32
    bits, the backlight path does scale linearly: it leaves the object
    as it is and writes one line to the backlight stream, the luma
    [(77 R + 150 G + 29 B) >> 8] of the colour when the maximum is 255,
    and [luma * maxBrightness / 255], truncated, otherwise.  Colour
    0x00FFFFFF has luma 255, colour 0 has luma 0, and a luma of 255 with
    maximum 128 gives 128. *)
Lemma backlight_linear_without_overflow (s : LightState) (l : Light) :
  0 <= mLcdBacklight_second l ->
  luma (color s) * mLcdBacklight_second l <= UInt32.max_unsigned ->
  rgbToBrightness s = luma (color s) /\
  setLcdBacklight s l =
    Some (tt, l,
          [ mkWrite LcdBacklight
              (to_string
                 (backlight_level (color s) (mLcdBacklight_second l))) ]) /\
  luma 0x00FFFFFF = 255 /\
  luma 0x00000000 = 0 /\
  (forall c, luma c = 255 -> backlight_level c 128 = 128).
Proof.
  intros Hmax Hfit.
  split; [apply rgbToBrightness_eq |].
  split; [| split; [reflexivity | split; [reflexivity |]]].
  - rewrite setLcdBacklight_run. unfold backlight_level.
    destruct (mLcdBacklight_second l =? 255); [reflexivity |].
    pose proof (luma_range (color s)) as Hl.
    unfold UInt32.mul.
    rewrite UInt32_wrap_in_range by u32_range.
    rewrite Z.quot_div_nonneg by nia. reflexivity.
  - intros c Hc. unfold backlight_level. rewrite Hc. reflexivity.
Qed.

(** A dim colour on a panel with the largest 32-bit maximum: the
    product still fits and the scaling is linear. *)
Example backlight_linear_largest_maximum :
  setLcdBacklight (mkLightState 0x00010101 NONE 0 0) (sample_light 4294967295)
    = Some (tt, sample_light 4294967295,
            [mkWrite LcdBacklight "16843009"]) /\
  luma 0x00010101 = 1 /\
  backlight_level 0x00010101 4294967295 = 16843009.
Proof.
  assert (H0 : 0 <= mLcdBacklight_second (sample_light 4294967295))
    by (cbn; lia).
  assert (H1 : luma (color (mkLightState 0x00010101 NONE 0 0))
               * mLcdBacklight_second (sample_light 4294967295)
               <= UInt32.max_unsigned)
    by (vm_compute; intros H; discriminate H).
  split; [| split; reflexivity].
  exact (proj1 (proj2 (backlight_linear_without_overflow
                         (mkLightState 0x00010101 NONE 0 0)
                         (sample_light 4294967295) H0 H1))).
Qed.

(** * The duty-cycle list *)

Lemma duty_entry_truncated (c b : Z) :
  0 <= c <= 100 -> 0 <= b <= 255 ->
  Z.quot (Int.mul c b) 255 = c * b / 255.
Proof.
  intros Hc Hb. unfold Int.mul.
  rewrite Int_wrap_in_range
    by int_range.
  apply Z.quot_div_nonneg; nia.
Qed.

Lemma duty_line_truncated (b : Z) :
  0 <= b <= 255 -> duty_line b = duty_pcts_truncated b.
Proof.
  intros Hb. unfold duty_line, duty_pcts_truncated, BRIGHTNESS_RAMP.
  cbn [map]. rewrite !duty_entry_truncated by lia. reflexivity.
Qed.

(** C5, as worded, fails: the entries are not rounded to the nearest
    integer.  For brightness 128 the code writes 12 for [25 * 128 / 255]
    (12.55), 18 for [37 * 128 / 255] (18.57) and 42 for
    [85 * 128 / 255] (42.67), where rounding gives 13, 19 and 43. *)
Lemma duty_pcts_not_rounded :
  0 <= 128 <= 255 /\
  getScaledDutyPcts 128 = Some "0,6,12,18,25,36,42,50"%string /\
  duty_pcts_rounded 128 = "0,6,13,19,25,36,43,50"%string /\
  getScaledDutyPcts 128 <> Some (duty_pcts_rounded 128).
Proof.
  split; [lia |].
  split; [vm_compute; reflexivity |].
  split; [vm_compute; reflexivity |].
  intros H. vm_compute in H. discriminate H.
Qed.

(** C5, amended.  For every brightness in 0..255 the duty-cycle list is
    the eight values [curve[i] * brightness / 255], each truncated (not
    rounded), over the curve 0, 12, 25, 37, 50, 72, 85, 100, joined by
    commas in order, and [setBlink] writes it as the second of its five
    lines, to the duty-cycle attribute.  Brightness 255 gives exactly
    0,12,25,37,50,72,85,100 and brightness 0 gives eight zeros. *)
Theorem duty_pcts_truncated_written
    (self : Led) (b onMs offMs : Z) (l : Light) :
  0 <= b <= 255 ->
  getScaledDutyPcts b = Some (duty_pcts_truncated b) /\
  (exists line0 line2 line3 line4,
     Led_setBlink self b onMs offMs l =
     Some (tt, l,
           [ mkWrite (LedStream (mName self) start_idx) line0;
             mkWrite (LedStream (mName self) duty_pcts)
                     (duty_pcts_truncated b);
             mkWrite (LedStream (mName self) pause_lo) line2;
             mkWrite (LedStream (mName self) pause_hi) line3;
             mkWrite (LedStream (mName self) ramp_step_ms) line4 ])) /\
  duty_pcts_truncated 255 = "0,12,25,37,50,72,85,100"%string /\
  duty_pcts_truncated 0 = "0,0,0,0,0,0,0,0"%string.
Proof.
  intros Hb.
  split; [now rewrite getScaledDutyPcts_eq, duty_line_truncated |].
  split; [| split; reflexivity].
  rewrite Led_setBlink_run. unfold blink_lines.
  rewrite duty_line_truncated by exact Hb.
  do 4 eexists. reflexivity.
Qed.

Lemma duty_pcts_truncated_written_witness :
  0 <= 128 <= 255 /\
  getScaledDutyPcts 128 = Some "0,6,12,18,25,36,42,50"%string.
Proof.
  assert (H : 0 <= 128 <= 255) by lia.
  split; [exact H |].
  exact (proj1 (duty_pcts_truncated_written (mkLed 0 "red") 128 1000 500
                  (sample_light 255) H)).
Defined.

(** * The entry point *)

Lemma setAttentionLight_run (s : LightState) (l : Light) :
  setAttentionLight s l =
  match setSpeakerBatteryLightLocked (set_mAttentionState s l) with
  | Some (_, l', w) => Some (tt, l', w)
  | None => None
  end.
Proof.
  unfold setAttentionLight, bind, get, put.
  destruct (setSpeakerBatteryLightLocked (set_mAttentionState s l))
    as [[[[] l'] w] |]; reflexivity.
Qed.

Lemma setBatteryLight_run (s : LightState) (l : Light) :
  setBatteryLight s l =
  match setSpeakerBatteryLightLocked (set_mBatteryState s l) with
  | Some (_, l', w) => Some (tt, l', w)
  | None => None
  end.
Proof.
  unfold setBatteryLight, bind, get, put.
  destruct (setSpeakerBatteryLightLocked (set_mBatteryState s l))
    as [[[[] l'] w] |]; reflexivity.
Qed.

Lemma setNotificationLight_run (s : LightState) (l : Light) :
  setNotificationLight s l =
  match setSpeakerBatteryLightLocked (set_mNotificationState s l) with
  | Some (_, l', w) => Some (tt, l', w)
  | None => None
  end.
Proof.
  unfold setNotificationLight, bind, get, put.
  destruct (setSpeakerBatteryLightLocked (set_mNotificationState s l))
    as [[[[] l'] w] |]; reflexivity.
Qed.

(** Every handler completes; it keeps the LEDs, the panel maximum and
    the registered roles of the object. *)
Lemma call_total (h : Handler) (s : LightState) (l : Light) :
  exists l' w,
    call h s l = Some (tt, l', w) /\ mLights l' = mLights l.
Proof.
  destruct h; cbn [call].
  - rewrite setAttentionLight_run, setSpeakerBatteryLightLocked_run.
    do 2 eexists. split; reflexivity.
  - rewrite setLcdBacklight_run. do 2 eexists. split; reflexivity.
  - rewrite setBatteryLight_run, setSpeakerBatteryLightLocked_run.
    do 2 eexists. split; reflexivity.
  - rewrite setNotificationLight_run, setSpeakerBatteryLightLocked_run.
    do 2 eexists. split; reflexivity.
Qed.

Lemma find_registered (type : LightType) :
  find type Light_ctor_mLights =
  match type with
  | ATTENTION => Some attnFn
  | BACKLIGHT => Some backlightFn
  | BATTERY => Some batteryFn
  | NOTIFICATIONS => Some notifFn
  | _ => None
  end.
Proof. destruct type; reflexivity. Qed.

(** The registered roles are an invariant of the object: a request never
    changes them. *)
Lemma setLight_keeps_mLights
    (type : LightType) (s : LightState) (l l' : Light)
    (st : Status) (w : list Write) :
  setLight type s l = Some (st, l', w) -> mLights l' = mLights l.
Proof.
  unfold setLight, bind, get, ret.
  destruct (find type (mLights l)) as [h |].
  - destruct (call_total h s l) as (l1 & w1 & E & Hm). rewrite E.
    intros H. injection H as _ <- _. exact Hm.
  - intros H. injection H as _ <- _. reflexivity.
Qed.

(** C6.  On an object whose roles are those the constructor registers,
    [setLight] with a role outside ATTENTION, BACKLIGHT, BATTERY and
    NOTIFICATIONS returns LIGHT_NOT_SUPPORTED, writes nothing and leaves
    the object, hence the three stored states, as it is; with one of the
    four roles it completes and returns SUCCESS. *)
Theorem setLight_role_support
    (type : LightType) (s : LightState) (l : Light) :
  mLights l = Light_ctor_mLights ->
  (supported type = false ->
     setLight type s l = Some (LIGHT_NOT_SUPPORTED, l, [])) /\
  (supported type = true ->
     exists l' w, setLight type s l = Some (SUCCESS, l', w)).
Proof.
  intros Hreg. unfold setLight, bind, get, ret.
  rewrite Hreg, find_registered.
  split; intros Hs.
  - destruct type; try discriminate Hs; reflexivity.
  - destruct type; try discriminate Hs.
    + destruct (call_total backlightFn s l) as (l' & w & E & _).
      rewrite E. do 2 eexists. reflexivity.
    + destruct (call_total batteryFn s l) as (l' & w & E & _).
      rewrite E. do 2 eexists. reflexivity.
    + destruct (call_total notifFn s l) as (l' & w & E & _).
      rewrite E. do 2 eexists. reflexivity.
    + destruct (call_total attnFn s l) as (l' & w & E & _).
      rewrite E. do 2 eexists. reflexivity.
Qed.

Lemma setLight_role_support_witness :
  mLights (sample_light 255) = Light_ctor_mLights /\
  supported WIFI = false /\
  setLight WIFI (mkLightState 0xFFFF0000 TIMED 1000 500) (sample_light 255)
    = Some (LIGHT_NOT_SUPPORTED, sample_light 255, []) /\
  supported BATTERY = true /\
  (exists l' w,
     setLight BATTERY (mkLightState 0xFFFF0000 TIMED 1000 500)
       (sample_light 255) = Some (SUCCESS, l', w)).
Proof.
  split; [reflexivity |].
  split; [reflexivity |].
  split.
  - exact (proj1 (setLight_role_support WIFI
                    (mkLightState 0xFFFF0000 TIMED 1000 500)
                    (sample_light 255) eq_refl) eq_refl).
  - split; [reflexivity |].
    exact (proj2 (setLight_role_support BATTERY
                    (mkLightState 0xFFFF0000 TIMED 1000 500)
                    (sample_light 255) eq_refl) eq_refl).
Defined.

(** * The blink switch *)

Lemma blink_lines_targets (self : Led) (b onMs offMs : Z) (w : Write) :
  In w (blink_lines self b onMs offMs) -> target w <> RgbBlink.
Proof.
  unfold blink_lines. cbn [In].
  intros [<- | [<- | [<- | [<- | [<- | []]]]]]; discriminate.
Qed.

Lemma steady_lines_targets (self : Led) (v : Z) (w : Write) :
  In w (steady_lines self v) -> target w <> RgbBlink.
Proof.
  unfold steady_lines. cbn [In]. intros [<- | [<- | []]]; discriminate.
Qed.

(** C7.  Applying a state to the shared LED completes and writes 0 to
    the blink switch before anything else.  With flash mode TIMED the
    lines that follow are those of [setBlink] on the red, the green and
    the blue channel, none of them to the blink switch, and then, last,
    a 1 to the blink switch.  With any other flash mode the lines that
    follow are those of [setBrightness] on the three channels and none
    of them goes to the blink switch, so it is never written 1. *)
Theorem blink_start_ordering (s : LightState) (l : Light) :
  exists red green blue rest,
    scaled_rgb (color s) = (red, green, blue) /\
    setSpeakerLightLocked s l =
      Some (tt, l, mkWrite RgbBlink "0" :: rest) /\
    (flashMode s = TIMED ->
       exists wr wg wb,
         Led_setBlink (mRedLed l) red (flashOnMs s) (flashOffMs s) l
           = Some (tt, l, wr) /\
         Led_setBlink (mGreenLed l) green (flashOnMs s) (flashOffMs s) l
           = Some (tt, l, wg) /\
         Led_setBlink (mBlueLed l) blue (flashOnMs s) (flashOffMs s) l
           = Some (tt, l, wb) /\
         rest = wr ++ wg ++ wb ++ [mkWrite RgbBlink "1"] /\
         (forall w, In w (wr ++ wg ++ wb) -> target w <> RgbBlink)) /\
    (flashMode s <> TIMED ->
       exists wr wg wb,
         Led_setBrightness (mRedLed l) red l = Some (tt, l, wr) /\
         Led_setBrightness (mGreenLed l) green l = Some (tt, l, wg) /\
         Led_setBrightness (mBlueLed l) blue l = Some (tt, l, wb) /\
         rest = wr ++ wg ++ wb /\
         (forall w, In w rest -> target w <> RgbBlink)).
Proof.
  rewrite setSpeakerLightLocked_run. unfold applied_lines.
  destruct (scaled_rgb (color s)) as [[r g] b].
  exists r, g, b. unfold drive_lines. eexists.
  split; [reflexivity |]. split; [reflexivity |].
  split.
  - intros Hm. rewrite Hm.
    exists (blink_lines (mRedLed l) r (flashOnMs s) (flashOffMs s)),
           (blink_lines (mGreenLed l) g (flashOnMs s) (flashOffMs s)),
           (blink_lines (mBlueLed l) b (flashOnMs s) (flashOffMs s)).
    rewrite !Led_setBlink_run.
    repeat (split; [reflexivity |]).
    intros w Hw.
    apply in_app_or in Hw as [Hw | Hw];
      [| apply in_app_or in Hw as [Hw | Hw]];
      eapply blink_lines_targets; exact Hw.
  - intros Hm.
    exists (steady_lines (mRedLed l) r), (steady_lines (mGreenLed l) g),
           (steady_lines (mBlueLed l) b).
    rewrite !Led_setBrightness_run.
    repeat (split; [reflexivity |]).
    split; [destruct (flashMode s); [reflexivity | now elim Hm | reflexivity] |].
    intros w Hw.
    assert (Hw' : In w (steady_lines (mRedLed l) r
                        ++ steady_lines (mGreenLed l) g
                        ++ steady_lines (mBlueLed l) b))
      by (destruct (flashMode s); [exact Hw | now elim Hm | exact Hw]).
    apply in_app_or in Hw' as [Hw' | Hw'];
      [| apply in_app_or in Hw' as [Hw' | Hw']];
      eapply steady_lines_targets; exact Hw'.
Qed.

(** * Frame of the backlight request *)

(** C8.  On an object whose roles are those the constructor registers,
    [setLight] with role BACKLIGHT returns SUCCESS, writes exactly one
    line, to the backlight stream, and returns the object as it was: the
    stored BATTERY, NOTIFICATIONS and ATTENTION states are the same and
    no field holds the backlight state.  No line goes to an attribute
    of an LED or to the blink switch. *)
Theorem backlight_request_frame (s : LightState) (l : Light) :
  mLights l = Light_ctor_mLights ->
  exists l' ws line,
    setLight BACKLIGHT s l = Some (SUCCESS, l', ws) /\
    ws = [mkWrite LcdBacklight line] /\
    l' = l /\
    mBatteryState l' = mBatteryState l /\
    mNotificationState l' = mNotificationState l /\
    mAttentionState l' = mAttentionState l /\
    (forall w, In w ws -> target w = LcdBacklight).
Proof.
  intros Hreg. unfold setLight, bind, get, ret.
  rewrite Hreg, find_registered. cbn [call].
  rewrite setLcdBacklight_run.
  do 3 eexists. split; [reflexivity |]. split; [reflexivity |].
  repeat (split; [reflexivity |]).
  intros w [<- | []]. reflexivity.
Qed.

Lemma backlight_request_frame_witness :
  mLights (sample_light 128) = Light_ctor_mLights /\
  exists l' ws line,
    setLight BACKLIGHT (mkLightState 0x00FFFFFF NONE 0 0) (sample_light 128)
      = Some (SUCCESS, l', ws) /\
    ws = [mkWrite LcdBacklight line] /\
    l' = sample_light 128 /\
    mBatteryState l' = mBatteryState (sample_light 128) /\
    mNotificationState l' = mNotificationState (sample_light 128) /\
    mAttentionState l' = mAttentionState (sample_light 128) /\
    (forall w, In w ws -> target w = LcdBacklight).
Proof.
  split; [reflexivity |].
  exact (backlight_request_frame (mkLightState 0x00FFFFFF NONE 0 0)
           (sample_light 128) eq_refl).
Defined.

(** * Divisions *)

(** C9.  [setBlink] with an on-time of 0 completes: it takes the branch
    of a short on-time and writes pause-high 0 and step duration 0.  No
    division of the code meets a zero divisor: the ramp timing, the
    duty-cycle list, the alpha scaling, the backlight rescaling and the
    whole of [setLight] complete for every input. *)
Theorem division_never_by_zero :
  Led_setBlink_timing 0 = Some (0, 0) /\
  (forall self b offMs l,
     exists line0 pcts,
       Led_setBlink self b 0 offMs l =
       Some (tt, l,
             [ mkWrite (LedStream (mName self) start_idx) line0;
               mkWrite (LedStream (mName self) duty_pcts) pcts;
               mkWrite (LedStream (mName self) pause_lo) (to_string offMs);
               mkWrite (LedStream (mName self) pause_hi) "0";
               mkWrite (LedStream (mName self) ramp_step_ms) "0" ])) /\
  (forall onMs, exists t, Led_setBlink_timing onMs = Some t) /\
  (forall b, exists pcts, getScaledDutyPcts b = Some pcts) /\
  (forall s, exists rgb, setSpeakerLightLocked_rgb s = Some rgb) /\
  (forall s l, exists line,
     setLcdBacklight s l = Some (tt, l, [mkWrite LcdBacklight line])) /\
  (forall type s l, exists st l' ws, setLight type s l = Some (st, l', ws)).
Proof.
  split; [reflexivity |].
  split.
  { intros self b offMs l. rewrite Led_setBlink_run.
    do 2 eexists. reflexivity. }
  split.
  { intros onMs. rewrite Led_setBlink_timing_eq. eexists. reflexivity. }
  split.
  { intros b. rewrite getScaledDutyPcts_eq. eexists. reflexivity. }
  split.
  { intros s. rewrite setSpeakerLightLocked_rgb_eq. eexists. reflexivity. }
  split.
  { intros s l. rewrite setLcdBacklight_run. eexists. reflexivity. }
  intros type s l. unfold setLight, bind, get, ret.
  destruct (find type (mLights l)) as [h |].
  - destruct (call_total h s l) as (l' & w & E & _). rewrite E.
    do 3 eexists. reflexivity.
  - do 3 eexists. reflexivity.
Qed.

(** * A lit state that shows nothing *)

Lemma scaled_rgb_alpha0 (c : Z) : byte_of c 3 = 0 -> scaled_rgb c = (0, 0, 0).
Proof.
  intros Ha. unfold scaled_rgb. rewrite Ha. cbn [Z.eqb].
  rewrite !Z.mul_0_r. reflexivity.
Qed.

(** C10.  A state whose alpha byte is 0 and whose lower 24 bits are not
    zero is lit, and applying it drives the three channels with value 0.
    Stored as the NOTIFICATIONS state it is the one applied, whatever
    the ATTENTION and BATTERY states are; stored as the ATTENTION state
    it is the one applied when NOTIFICATIONS is not lit, whatever the
    BATTERY state is.  The lines written are then a 0 to the blink
    switch and, per channel, either brightness 0 or a duty-cycle list of
    eight zeros. *)
Theorem dark_lit_state_masks (s : LightState) (l : Light) :
  byte_of (color s) 3 = 0 ->
  color s mod 16777216 <> 0 ->
  isLit s = true /\
  scaled_rgb (color s) = (0, 0, 0) /\
  setSpeakerLightLocked s l = setSpeakerLightLocked_drive s 0 0 0 l /\
  (mNotificationState l = s ->
     setSpeakerBatteryLightLocked l = setSpeakerLightLocked_drive s 0 0 0 l) /\
  (mAttentionState l = s -> isLit (mNotificationState l) = false ->
     setSpeakerBatteryLightLocked l = setSpeakerLightLocked_drive s 0 0 0 l) /\
  setSpeakerLightLocked_drive s 0 0 0 l = Some (tt, l, drive_lines l s 0 0 0) /\
  (forall w name, In w (drive_lines l s 0 0 0) ->
     (target w = LedStream name brightness -> text w = "0"%string) /\
     (target w = LedStream name duty_pcts ->
        text w = "0,0,0,0,0,0,0,0"%string)).
Proof.
  intros Ha Hrgb.
  assert (Hlit : lit24 (color s) = true).
  { unfold lit24. destruct (Z.eqb_spec (color s mod 16777216) 0);
      [contradiction | reflexivity]. }
  assert (Happ : setSpeakerLightLocked s l
                 = setSpeakerLightLocked_drive s 0 0 0 l).
  { rewrite setSpeakerLightLocked_run, setSpeakerLightLocked_drive_run.
    unfold applied_lines. now rewrite scaled_rgb_alpha0. }
  split; [now rewrite isLit_lit24 |].
  split; [now apply scaled_rgb_alpha0 |].
  split; [exact Happ |].
  split.
  { intros HN. rewrite <- Happ, setSpeakerBatteryLightLocked_run, HN, Hlit.
    now rewrite setSpeakerLightLocked_run. }
  split.
  { intros HA HN. rewrite isLit_lit24 in HN.
    rewrite <- Happ, setSpeakerBatteryLightLocked_run, HN, HA, Hlit.
    now rewrite setSpeakerLightLocked_run. }
  split; [apply setSpeakerLightLocked_drive_run |].
  intros w name Hw. unfold drive_lines in Hw.
  destruct Hw as [<- | Hw]; [split; discriminate |].
  assert (Hb : forall self on off,
             In w (blink_lines self 0 on off) ->
             (target w = LedStream name brightness -> text w = "0"%string) /\
             (target w = LedStream name duty_pcts ->
                text w = "0,0,0,0,0,0,0,0"%string)).
  { intros self on off. unfold blink_lines. cbn [In].
    intros [<- | [<- | [<- | [<- | [<- | []]]]]]; cbn [target text];
      split; intros E; try discriminate E; reflexivity. }
  assert (Hs : forall self,
             In w (steady_lines self 0) ->
             (target w = LedStream name brightness -> text w = "0"%string) /\
             (target w = LedStream name duty_pcts ->
                text w = "0,0,0,0,0,0,0,0"%string)).
  { intros self. unfold steady_lines. cbn [In].
    intros [<- | [<- | []]]; cbn [target text];
      split; intros E; try discriminate E; reflexivity. }
  destruct (flashMode s).
  - apply in_app_or in Hw as [Hw | Hw];
      [| apply in_app_or in Hw as [Hw | Hw]]; eapply Hs; exact Hw.
  - apply in_app_or in Hw as [Hw | Hw];
      [| apply in_app_or in Hw as [Hw | Hw]];
      [| | apply in_app_or in Hw as [Hw | Hw]];
      try (eapply Hb; exact Hw).
    destruct Hw as [<- | []]. split; discriminate.
  - apply in_app_or in Hw as [Hw | Hw];
      [| apply in_app_or in Hw as [Hw | Hw]]; eapply Hs; exact Hw.
Qed.

Lemma dark_lit_state_masks_witness :
  byte_of (color (mkLightState 0x00FF0000 NONE 0 0)) 3 = 0 /\
  color (mkLightState 0x00FF0000 NONE 0 0) mod 16777216 <> 0 /\
  isLit (mkLightState 0xFFFF0000 NONE 0 0) = true /\
  setSpeakerBatteryLightLocked
    (set_mNotificationState (mkLightState 0x00FF0000 NONE 0 0)
       (set_mBatteryState (mkLightState 0xFFFF0000 NONE 0 0)
          (sample_light 255)))
  = setSpeakerLightLocked_drive (mkLightState 0x00FF0000 NONE 0 0) 0 0 0
      (set_mNotificationState (mkLightState 0x00FF0000 NONE 0 0)
         (set_mBatteryState (mkLightState 0xFFFF0000 NONE 0 0)
            (sample_light 255))).
Proof.
  assert (Ha : byte_of (color (mkLightState 0x00FF0000 NONE 0 0)) 3 = 0)
    by reflexivity.
  assert (Hc : color (mkLightState 0x00FF0000 NONE 0 0) mod 16777216 <> 0)
    by (simpl; discriminate).
  split; [exact Ha | split; [exact Hc | split; [reflexivity |]]].
  exact (proj1 (proj2 (proj2 (proj2
           (dark_lit_state_masks (mkLightState 0x00FF0000 NONE 0 0)
              (set_mNotificationState (mkLightState 0x00FF0000 NONE 0 0)
                 (set_mBatteryState (mkLightState 0xFFFF0000 NONE 0 0)
                    (sample_light 255))) Ha Hc)))) eq_refl).
Defined.


(** * Requests for the roles that share the LED *)

Lemma setSpeakerBatteryLightLocked_effective (l : Light) :
  setSpeakerBatteryLightLocked l = Some (tt, l, effective_lines l).
Proof. exact (setSpeakerBatteryLightLocked_run l). Qed.

Lemma call_attnFn (s : LightState) (l : Light) :
  call attnFn s l =
  Some (tt, set_mAttentionState s l,
        effective_lines (set_mAttentionState s l)).
Proof.
  cbn [call].
  now rewrite setAttentionLight_run, setSpeakerBatteryLightLocked_effective.
Qed.

Lemma call_batteryFn (s : LightState) (l : Light) :
  call batteryFn s l =
  Some (tt, set_mBatteryState s l, effective_lines (set_mBatteryState s l)).
Proof.
  cbn [call].
  now rewrite setBatteryLight_run, setSpeakerBatteryLightLocked_effective.
Qed.

Lemma call_notifFn (s : LightState) (l : Light) :
  call notifFn s l =
  Some (tt, set_mNotificationState s l,
        effective_lines (set_mNotificationState s l)).
Proof.
  cbn [call].
  now rewrite setNotificationLight_run, setSpeakerBatteryLightLocked_effective.
Qed.

Lemma call_backlightFn (s : LightState) (l : Light) :
  exists line, call backlightFn s l = Some (tt, l, [mkWrite LcdBacklight line]).
Proof. cbn [call]. rewrite setLcdBacklight_run. eexists. reflexivity. Qed.

Lemma setLight_found (type : LightType) (s : LightState) (l : Light)
    (h : Handler) :
  find type (mLights l) = Some h ->
  setLight type s l =
  match call h s l with
  | Some (_, l', w) => Some (SUCCESS, l', w)
  | None => None
  end.
Proof.
  intros Hf. unfold setLight, bind, get, ret. rewrite Hf.
  destruct (call h s l) as [[[[] l'] w] |]; [| reflexivity].
  now rewrite app_nil_r.
Qed.

Lemma setLight_not_found (type : LightType) (s : LightState) (l : Light) :
  find type (mLights l) = None ->
  setLight type s l = Some (LIGHT_NOT_SUPPORTED, l, []).
Proof. intros Hf. unfold setLight, bind, get, ret. now rewrite Hf. Qed.

Lemma setLight_rgb_run (type : LightType) (s : LightState) (l : Light) :
  mLights l = Light_ctor_mLights ->
  shares_led type = true ->
  setLight type s l =
  Some (SUCCESS, store type s l, effective_lines (store type s l)).
Proof.
  intros Hreg Hrole.
  destruct type; try discriminate Hrole.
  - rewrite (setLight_found _ _ _ batteryFn) by now rewrite Hreg.
    now rewrite call_batteryFn.
  - rewrite (setLight_found _ _ _ notifFn) by now rewrite Hreg.
    now rewrite call_notifFn.
  - rewrite (setLight_found _ _ _ attnFn) by now rewrite Hreg.
    now rewrite call_attnFn.
Qed.

(** X1.  On an object with the roles of the constructor, a request for
    ATTENTION, BATTERY or NOTIFICATIONS returns SUCCESS, replaces the
    stored state of that role and of no other, and writes the lines that
    the arbitration gives for the three states now stored: the request
    itself is shown only if no state of higher priority is lit. *)
Theorem rgb_request_stores_then_arbitrates
    (type : LightType) (s : LightState) (l : Light) :
  mLights l = Light_ctor_mLights ->
  shares_led type = true ->
  exists l',
    setLight type s l = Some (SUCCESS, l', effective_lines l') /\
    l' = store type s l /\
    (type <> ATTENTION -> mAttentionState l' = mAttentionState l) /\
    (type <> BATTERY -> mBatteryState l' = mBatteryState l) /\
    (type <> NOTIFICATIONS -> mNotificationState l' = mNotificationState l) /\
    (type = ATTENTION -> mAttentionState l' = s) /\
    (type = BATTERY -> mBatteryState l' = s) /\
    (type = NOTIFICATIONS -> mNotificationState l' = s).
Proof.
  intros Hreg Hrole. exists (store type s l).
  split; [now apply setLight_rgb_run |].
  split; [reflexivity |].
  destruct type; try discriminate Hrole; cbn [store];
    repeat split; intros H; try reflexivity; try discriminate H; now elim H.
Qed.

Lemma rgb_request_stores_then_arbitrates_witness :
  mLights (sample_light 255) = Light_ctor_mLights /\
  shares_led BATTERY = true /\
  exists l',
    setLight BATTERY (mkLightState 0xFF00FF00 NONE 0 0) (sample_light 255)
      = Some (SUCCESS, l', effective_lines l') /\
    mBatteryState l' = mkLightState 0xFF00FF00 NONE 0 0.
Proof.
  split; [reflexivity | split; [reflexivity |]].
  destruct (rgb_request_stores_then_arbitrates BATTERY
              (mkLightState 0xFF00FF00 NONE 0 0) (sample_light 255)
              eq_refl eq_refl)
    as (l' & Hrun & _ & _ & _ & _ & _ & Hb & _).
  exists l'. split; [exact Hrun | exact (Hb eq_refl)].
Defined.

Lemma call_idempotent (h : Handler) (s : LightState) (l l' : Light)
    (w : list Write) :
  call h s l = Some (tt, l', w) -> call h s l' = Some (tt, l', w).
Proof.
  destruct h.
  - rewrite call_attnFn. intros H. injection H as <- <-. now rewrite call_attnFn.
  - destruct (call_backlightFn s l) as [line E]. rewrite E.
    intros H. injection H as <- <-. exact E.
  - rewrite call_batteryFn. intros H. injection H as <- <-. now rewrite call_batteryFn.
  - rewrite call_notifFn. intros H. injection H as <- <-. now rewrite call_notifFn.
Qed.

Lemma call_keeps_configuration (h : Handler) (s : LightState) (l l' : Light)
    (w : list Write) :
  call h s l = Some (tt, l', w) ->
  mLights l' = mLights l /\
  mLcdBacklight_second l' = mLcdBacklight_second l /\
  mRedLed l' = mRedLed l /\ mGreenLed l' = mGreenLed l /\
  mBlueLed l' = mBlueLed l.
Proof.
  destruct h.
  - rewrite call_attnFn. intros H. injection H as <- _. repeat split.
  - destruct (call_backlightFn s l) as [line E]. rewrite E.
    intros H. injection H as <- _. repeat split.
  - rewrite call_batteryFn. intros H. injection H as <- _. repeat split.
  - rewrite call_notifFn. intros H. injection H as <- _. repeat split.
Qed.

(** X2.  A request is idempotent: repeating it on the object it left
    returns the same status, leaves that object as it is and writes the
    same lines again.  This holds for every role, supported or not. *)
Theorem setLight_idempotent
    (type : LightType) (s : LightState) (l l' : Light)
    (st : Status) (w : list Write) :
  setLight type s l = Some (st, l', w) ->
  setLight type s l' = Some (st, l', w).
Proof.
  destruct (find type (mLights l)) as [h |] eqn:Hf.
  - rewrite (setLight_found _ _ _ h Hf).
    destruct (call h s l) as [[[[] l1] w1] |] eqn:E; [| discriminate].
    intros H. injection H as <- <- <-.
    destruct (call_keeps_configuration _ _ _ _ _ E) as [Hm _].
    rewrite (setLight_found _ _ _ h) by now rewrite Hm.
    now rewrite (call_idempotent _ _ _ _ _ E).
  - rewrite (setLight_not_found _ _ _ Hf).
    intros H. injection H as <- <- <-.
    now apply setLight_not_found.
Qed.

Lemma setLight_idempotent_witness :
  setLight BATTERY (mkLightState 0xFF00FF00 TIMED 1000 500) (sample_light 255)
    = Some (SUCCESS,
            store BATTERY (mkLightState 0xFF00FF00 TIMED 1000 500)
                  (sample_light 255),
            effective_lines
              (store BATTERY (mkLightState 0xFF00FF00 TIMED 1000 500)
                     (sample_light 255))) /\
  setLight BATTERY (mkLightState 0xFF00FF00 TIMED 1000 500)
    (store BATTERY (mkLightState 0xFF00FF00 TIMED 1000 500) (sample_light 255))
    = Some (SUCCESS,
            store BATTERY (mkLightState 0xFF00FF00 TIMED 1000 500)
                  (sample_light 255),
            effective_lines
              (store BATTERY (mkLightState 0xFF00FF00 TIMED 1000 500)
                     (sample_light 255))).
Proof.
  assert (H : setLight BATTERY (mkLightState 0xFF00FF00 TIMED 1000 500)
                (sample_light 255)
              = Some (SUCCESS,
                      store BATTERY (mkLightState 0xFF00FF00 TIMED 1000 500)
                            (sample_light 255),
                      effective_lines
                        (store BATTERY
                               (mkLightState 0xFF00FF00 TIMED 1000 500)
                               (sample_light 255))))
    by reflexivity.
  split; [exact H | exact (setLight_idempotent _ _ _ _ _ _ H)].
Defined.

Lemma call_last_wins (h : Handler) (s1 s2 : LightState) (l l1 : Light)
    (w1 : list Write) :
  call h s1 l = Some (tt, l1, w1) -> call h s2 l1 = call h s2 l.
Proof.
  destruct h.
  - rewrite call_attnFn. intros H. injection H as <- _.
    now rewrite !call_attnFn.
  - destruct (call_backlightFn s1 l) as [line E]. rewrite E.
    intros H. now injection H as <- _.
  - rewrite call_batteryFn. intros H. injection H as <- _.
    now rewrite !call_batteryFn.
  - rewrite call_notifFn. intros H. injection H as <- _.
    now rewrite !call_notifFn.
Qed.

(** X3.  The last request for a role wins: after any request for a
    role, a second request for the same role gives the status, the
    object and the lines that it would have given without the first.
    Nothing of an overwritten state survives. *)
Theorem setLight_last_request_wins
    (type : LightType) (s1 s2 : LightState) (l l1 : Light)
    (st1 : Status) (w1 : list Write) :
  setLight type s1 l = Some (st1, l1, w1) ->
  setLight type s2 l1 = setLight type s2 l.
Proof.
  destruct (find type (mLights l)) as [h |] eqn:Hf.
  - rewrite (setLight_found _ _ _ h Hf).
    destruct (call h s1 l) as [[[[] l'] w] |] eqn:E; [| discriminate].
    intros H. injection H as _ <- _.
    destruct (call_keeps_configuration _ _ _ _ _ E) as [Hm _].
    rewrite (setLight_found _ s2 l' h) by now rewrite Hm.
    rewrite (setLight_found _ s2 l h Hf).
    now rewrite (call_last_wins _ _ _ _ _ _ E).
  - rewrite (setLight_not_found _ _ _ Hf).
    intros H. now injection H as _ <- _.
Qed.

Lemma setLight_last_request_wins_witness :
  setLight NOTIFICATIONS (mkLightState 0xFF0000FF NONE 0 0)
    (store NOTIFICATIONS (mkLightState 0xFFFF0000 TIMED 1000 500)
           (sample_light 255))
  = setLight NOTIFICATIONS (mkLightState 0xFF0000FF NONE 0 0)
      (sample_light 255).
Proof.
  assert (H : setLight NOTIFICATIONS (mkLightState 0xFFFF0000 TIMED 1000 500)
                (sample_light 255)
              = Some (SUCCESS,
                      store NOTIFICATIONS
                            (mkLightState 0xFFFF0000 TIMED 1000 500)
                            (sample_light 255),
                      effective_lines
                        (store NOTIFICATIONS
                               (mkLightState 0xFFFF0000 TIMED 1000 500)
                               (sample_light 255))))
    by reflexivity.
  exact (setLight_last_request_wins NOTIFICATIONS _
           (mkLightState 0xFF0000FF NONE 0 0) _ _ _ _ H).
Defined.

Lemma store_keeps_mLights (type : LightType) (s : LightState) (l : Light) :
  mLights (store type s l) = mLights l.
Proof. destruct type; reflexivity. Qed.

Lemma store_commute (t1 t2 : LightType) (s1 s2 : LightState) (l : Light) :
  t1 <> t2 ->
  store t2 s2 (store t1 s1 l) = store t1 s1 (store t2 s2 l).
Proof. intros Hne. destruct t1, t2; try reflexivity; now elim Hne. Qed.

(** X4.  On an object with the roles of the constructor, two requests
    for different roles among ATTENTION, BATTERY and NOTIFICATIONS
    commute: in either order they end in the same object, and the
    second request of either order writes the same lines.  What the LED
    shows depends on the last state of each role, not on the order in
    which the roles were set. *)
Theorem setLight_requests_commute
    (t1 t2 : LightType) (s1 s2 : LightState) (l : Light) :
  mLights l = Light_ctor_mLights ->
  shares_led t1 = true -> shares_led t2 = true -> t1 <> t2 ->
  exists a a' w1 w1' b w,
    setLight t1 s1 l = Some (SUCCESS, a, w1) /\
    setLight t2 s2 a = Some (SUCCESS, b, w) /\
    setLight t2 s2 l = Some (SUCCESS, a', w1') /\
    setLight t1 s1 a' = Some (SUCCESS, b, w).
Proof.
  intros Hreg H1 H2 Hne.
  exists (store t1 s1 l), (store t2 s2 l),
         (effective_lines (store t1 s1 l)), (effective_lines (store t2 s2 l)),
         (store t2 s2 (store t1 s1 l)),
         (effective_lines (store t2 s2 (store t1 s1 l))).
  split; [now apply setLight_rgb_run |].
  split; [apply setLight_rgb_run;
          [now rewrite store_keeps_mLights | exact H2] |].
  split; [now apply setLight_rgb_run |].
  rewrite (store_commute t1 t2) by exact Hne.
  apply setLight_rgb_run; [now rewrite store_keeps_mLights | exact H1].
Qed.

Lemma setLight_requests_commute_witness :
  mLights (sample_light 255) = Light_ctor_mLights /\
  shares_led BATTERY = true /\ shares_led NOTIFICATIONS = true /\
  BATTERY <> NOTIFICATIONS /\
  exists a a' w1 w1' b w,
    setLight BATTERY (mkLightState 0xFF00FF00 NONE 0 0) (sample_light 255)
      = Some (SUCCESS, a, w1) /\
    setLight NOTIFICATIONS (mkLightState 0xFFFF0000 TIMED 1000 500) a
      = Some (SUCCESS, b, w) /\
    setLight NOTIFICATIONS (mkLightState 0xFFFF0000 TIMED 1000 500)
      (sample_light 255) = Some (SUCCESS, a', w1') /\
    setLight BATTERY (mkLightState 0xFF00FF00 NONE 0 0) a'
      = Some (SUCCESS, b, w).
Proof.
  assert (Hne : BATTERY <> NOTIFICATIONS) by discriminate.
  split; [reflexivity |]. split; [reflexivity |]. split; [reflexivity |].
  split; [exact Hne |].
  exact (setLight_requests_commute BATTERY NOTIFICATIONS
           (mkLightState 0xFF00FF00 NONE 0 0)
           (mkLightState 0xFFFF0000 TIMED 1000 500)
           (sample_light 255) eq_refl eq_refl eq_refl Hne).
Defined.

(** X5.  On an object with the roles of the constructor, while the
    NOTIFICATIONS state is lit a request for ATTENTION or BATTERY is
    stored but not shown: whatever its state, the lines written are
    those of the NOTIFICATIONS state.  Likewise a request for BATTERY
    writes the lines of the ATTENTION state while that one is lit and
    NOTIFICATIONS is not. *)
Theorem lower_priority_request_is_masked (s : LightState) (l : Light) :
  mLights l = Light_ctor_mLights ->
  (isLit (mNotificationState l) = true ->
     setLight ATTENTION s l =
       Some (SUCCESS, set_mAttentionState s l,
             applied_lines l (mNotificationState l)) /\
     setLight BATTERY s l =
       Some (SUCCESS, set_mBatteryState s l,
             applied_lines l (mNotificationState l))) /\
  (isLit (mNotificationState l) = false ->
   isLit (mAttentionState l) = true ->
     setLight BATTERY s l =
       Some (SUCCESS, set_mBatteryState s l,
             applied_lines l (mAttentionState l))).
Proof.
  intros Hreg. split.
  - intros HN. rewrite isLit_lit24 in HN.
    rewrite !setLight_rgb_run by (exact Hreg || reflexivity).
    unfold effective_lines. cbn [store].
    change (mNotificationState (set_mAttentionState s l))
      with (mNotificationState l).
    change (mNotificationState (set_mBatteryState s l))
      with (mNotificationState l).
    rewrite HN. split; reflexivity.
  - intros HN HA. rewrite isLit_lit24 in HN, HA.
    rewrite setLight_rgb_run by (exact Hreg || reflexivity).
    unfold effective_lines. cbn [store].
    change (mNotificationState (set_mBatteryState s l))
      with (mNotificationState l).
    change (mAttentionState (set_mBatteryState s l))
      with (mAttentionState l).
    rewrite HN, HA. reflexivity.
Qed.

Lemma lower_priority_request_is_masked_witness :
  mLights (store NOTIFICATIONS (mkLightState 0xFFFF0000 NONE 0 0)
                 (sample_light 255)) = Light_ctor_mLights /\
  isLit (mkLightState 0xFFFF0000 NONE 0 0) = true /\
  setLight BATTERY (mkLightState 0xFF00FF00 TIMED 1000 500)
    (store NOTIFICATIONS (mkLightState 0xFFFF0000 NONE 0 0) (sample_light 255))
  = Some (SUCCESS,
          set_mBatteryState (mkLightState 0xFF00FF00 TIMED 1000 500)
            (store NOTIFICATIONS (mkLightState 0xFFFF0000 NONE 0 0)
                   (sample_light 255)),
          applied_lines
            (store NOTIFICATIONS (mkLightState 0xFFFF0000 NONE 0 0)
                   (sample_light 255))
            (mkLightState 0xFFFF0000 NONE 0 0)).
Proof.
  split; [reflexivity | split; [reflexivity |]].
  exact (proj2 (proj1 (lower_priority_request_is_masked
                         (mkLightState 0xFF00FF00 TIMED 1000 500)
                         (store NOTIFICATIONS
                                (mkLightState 0xFFFF0000 NONE 0 0)
                                (sample_light 255)) eq_refl) eq_refl)).
Defined.

(** X6.  A masked state reappears.  On an object with the roles of the
    constructor whose ATTENTION state is not lit: after a lit BATTERY
    request, a lit NOTIFICATIONS request writes the lines of the
    notification, and a following NOTIFICATIONS request that is not lit
    writes the lines of the battery state set at the start. *)
Theorem masked_state_reappears (b n off : LightState) (l : Light) :
  mLights l = Light_ctor_mLights ->
  isLit b = true -> isLit n = true -> isLit off = false ->
  isLit (mAttentionState l) = false ->
  exists l1 w1 l2 l3,
    setLight BATTERY b l = Some (SUCCESS, l1, w1) /\
    setLight NOTIFICATIONS n l1 = Some (SUCCESS, l2, applied_lines l n) /\
    setLight NOTIFICATIONS off l2 = Some (SUCCESS, l3, applied_lines l b).
Proof.
  intros Hreg Hb Hn Hoff HA. rewrite isLit_lit24 in Hb, Hn, Hoff, HA.
  exists (store BATTERY b l), (effective_lines (store BATTERY b l)),
         (store NOTIFICATIONS n (store BATTERY b l)),
         (store NOTIFICATIONS off (store NOTIFICATIONS n (store BATTERY b l))).
  split; [now apply setLight_rgb_run |].
  split.
  - rewrite setLight_rgb_run by (exact Hreg || reflexivity).
    unfold effective_lines. cbn. rewrite Hn. reflexivity.
  - rewrite setLight_rgb_run by (exact Hreg || reflexivity).
    unfold effective_lines. cbn. rewrite Hoff, HA, Hb. reflexivity.
Qed.

Lemma masked_state_reappears_witness :
  mLights (sample_light 255) = Light_ctor_mLights /\
  isLit (mkLightState 0xFF00FF00 NONE 0 0) = true /\
  isLit (mkLightState 0xFFFF0000 TIMED 1000 500) = true /\
  isLit (mkLightState 0xFF000000 NONE 0 0) = false /\
  isLit (mAttentionState (sample_light 255)) = false /\
  exists l1 w1 l2 l3,
    setLight BATTERY (mkLightState 0xFF00FF00 NONE 0 0) (sample_light 255)
      = Some (SUCCESS, l1, w1) /\
    setLight NOTIFICATIONS (mkLightState 0xFFFF0000 TIMED 1000 500) l1
      = Some (SUCCESS, l2,
              applied_lines (sample_light 255)
                            (mkLightState 0xFFFF0000 TIMED 1000 500)) /\
    setLight NOTIFICATIONS (mkLightState 0xFF000000 NONE 0 0) l2
      = Some (SUCCESS, l3,
              applied_lines (sample_light 255)
                            (mkLightState 0xFF00FF00 NONE 0 0)).
Proof.
  repeat (split; [reflexivity |]).
  exact (masked_state_reappears
           (mkLightState 0xFF00FF00 NONE 0 0)
           (mkLightState 0xFFFF0000 TIMED 1000 500)
           (mkLightState 0xFF000000 NONE 0 0)
           (sample_light 255) eq_refl eq_refl eq_refl eq_refl eq_refl).
Defined.

Lemma blink_lines_led (self : Led) (b onMs offMs : Z) (w : Write) :
  In w (blink_lines self b onMs offMs) ->
  exists attr, target w = LedStream (mName self) attr.
Proof.
  unfold blink_lines. cbn [In].
  intros [<- | [<- | [<- | [<- | [<- | []]]]]]; eexists; reflexivity.
Qed.

Lemma steady_lines_led (self : Led) (v : Z) (w : Write) :
  In w (steady_lines self v) ->
  exists attr, target w = LedStream (mName self) attr.
Proof.
  unfold steady_lines. cbn [In].
  intros [<- | [<- | []]]; eexists; reflexivity.
Qed.

Lemma rgb_target_red (l : Light) (w : Write) :
  (exists attr, target w = LedStream (mName (mRedLed l)) attr) ->
  rgb_target l (target w).
Proof. intros [attr E]. right. exists attr. now left. Qed.

Lemma rgb_target_green (l : Light) (w : Write) :
  (exists attr, target w = LedStream (mName (mGreenLed l)) attr) ->
  rgb_target l (target w).
Proof. intros [attr E]. right. exists attr. right. now left. Qed.

Lemma rgb_target_blue (l : Light) (w : Write) :
  (exists attr, target w = LedStream (mName (mBlueLed l)) attr) ->
  rgb_target l (target w).
Proof. intros [attr E]. right. exists attr. right. now right. Qed.

Lemma three_steady_targets (l : Light) (r g b : Z) (w : Write) :
  In w (steady_lines (mRedLed l) r ++ steady_lines (mGreenLed l) g
        ++ steady_lines (mBlueLed l) b) ->
  rgb_target l (target w).
Proof.
  intros Hw.
  apply in_app_or in Hw as [Hw | Hw];
    [| apply in_app_or in Hw as [Hw | Hw]].
  - eapply rgb_target_red, steady_lines_led, Hw.
  - eapply rgb_target_green, steady_lines_led, Hw.
  - eapply rgb_target_blue, steady_lines_led, Hw.
Qed.

Lemma applied_lines_targets (l : Light) (s : LightState) (w : Write) :
  In w (applied_lines l s) -> rgb_target l (target w).
Proof.
  unfold applied_lines. destruct (scaled_rgb (color s)) as [[r g] b].
  unfold drive_lines. intros [<- | Hw]; [now left |].
  destruct (flashMode s); try now apply (three_steady_targets l r g b).
  apply in_app_or in Hw as [Hw | Hw];
    [| apply in_app_or in Hw as [Hw | Hw]];
    [| | apply in_app_or in Hw as [Hw | Hw]].
  - eapply rgb_target_red, blink_lines_led, Hw.
  - eapply rgb_target_green, blink_lines_led, Hw.
  - eapply rgb_target_blue, blink_lines_led, Hw.
  - destruct Hw as [<- | []]. now left.
Qed.

Lemma effective_lines_targets (l : Light) (w : Write) :
  In w (effective_lines l) -> rgb_target l (target w).
Proof.
  unfold effective_lines.
  destruct (lit24 (color (mNotificationState l)));
    [apply applied_lines_targets |].
  destruct (lit24 (color (mAttentionState l)));
    [apply applied_lines_targets |].
  destruct (lit24 (color (mBatteryState l)));
    [apply applied_lines_targets |].
  apply three_steady_targets.
Qed.

(** X7.  On an object with the roles of the constructor, a request for
    ATTENTION, BATTERY or NOTIFICATIONS always writes something, and
    every line goes to the blink switch or to an attribute of the red,
    green or blue LED of the object; none goes to the backlight. *)
Theorem rgb_request_writes_only_rgb
    (type : LightType) (s : LightState) (l : Light) :
  mLights l = Light_ctor_mLights ->
  shares_led type = true ->
  exists l' ws,
    setLight type s l = Some (SUCCESS, l', ws) /\
    ws <> [] /\
    (forall w, In w ws ->
       rgb_target l (target w) /\ target w <> LcdBacklight).
Proof.
  intros Hreg Hrole.
  exists (store type s l), (effective_lines (store type s l)).
  split; [now apply setLight_rgb_run |].
  split.
  - unfold effective_lines, applied_lines, off_lines, drive_lines.
    repeat match goal with
           | |- context [if ?c then _ else _] => destruct c
           | |- context [let '(_, _) := ?p in _] => destruct p as [[? ?] ?]
           end; discriminate.
  - intros w Hw. apply effective_lines_targets in Hw.
    assert (Ht : rgb_target l (target w)).
    { destruct type; try discriminate Hrole; exact Hw. }
    split; [exact Ht |].
    destruct Ht as [E | [attr [E | [E | E]]]]; rewrite E; discriminate.
Qed.

Lemma rgb_request_writes_only_rgb_witness :
  mLights (sample_light 255) = Light_ctor_mLights /\
  shares_led ATTENTION = true /\
  exists l' ws,
    setLight ATTENTION (mkLightState 0xFF0000FF TIMED 200 200)
      (sample_light 255) = Some (SUCCESS, l', ws) /\
    ws <> [] /\
    (forall w, In w ws ->
       rgb_target (sample_light 255) (target w) /\
       target w <> LcdBacklight).
Proof.
  split; [reflexivity | split; [reflexivity |]].
  exact (rgb_request_writes_only_rgb ATTENTION
           (mkLightState 0xFF0000FF TIMED 200 200) (sample_light 255)
           eq_refl eq_refl).
Defined.

(** X20.  A request never changes the configuration of the object: the
    registered roles, the panel maximum and the three LEDs after the
    call are those before it, for every role and every state.  So an
    object that has the roles of the constructor keeps them for its
    whole life. *)
Theorem setLight_keeps_configuration
    (type : LightType) (s : LightState) (l l' : Light)
    (st : Status) (ws : list Write) :
  setLight type s l = Some (st, l', ws) ->
  mLights l' = mLights l /\
  mLcdBacklight_second l' = mLcdBacklight_second l /\
  mRedLed l' = mRedLed l /\ mGreenLed l' = mGreenLed l /\
  mBlueLed l' = mBlueLed l.
Proof.
  destruct (find type (mLights l)) as [h |] eqn:Hf.
  - rewrite (setLight_found _ _ _ h Hf).
    destruct (call h s l) as [[[[] l1] w1] |] eqn:E; [| discriminate].
    intros H. injection H as _ <- _.
    exact (call_keeps_configuration _ _ _ _ _ E).
  - rewrite (setLight_not_found _ _ _ Hf).
    intros H. injection H as _ <- _. repeat split.
Qed.

Lemma setLight_keeps_configuration_witness :
  mLights (store ATTENTION (mkLightState 0xFF0000FF TIMED 200 200)
                 (sample_light 1023)) = mLights (sample_light 1023) /\
  mLcdBacklight_second
    (store ATTENTION (mkLightState 0xFF0000FF TIMED 200 200)
           (sample_light 1023)) = 1023.
Proof.
  assert (H : setLight ATTENTION (mkLightState 0xFF0000FF TIMED 200 200)
                (sample_light 1023)
              = Some (SUCCESS,
                      store ATTENTION (mkLightState 0xFF0000FF TIMED 200 200)
                            (sample_light 1023),
                      effective_lines
                        (store ATTENTION
                               (mkLightState 0xFF0000FF TIMED 200 200)
                               (sample_light 1023))))
    by reflexivity.
  destruct (setLight_keeps_configuration _ _ _ _ _ _ H) as (Hm & Hl & _).
  split; [exact Hm | exact Hl].
Defined.


(** * Bounds of the backlight and of the channel values *)

(** X8.  For every colour and every panel maximum that is not negative,
    the backlight path writes one level, which is between 0 and the
    panel maximum: the panel is never driven beyond its maximum, also
    when the 32-bit product of the rescaling wraps. *)
Theorem backlight_never_exceeds_maximum (s : LightState) (l : Light) :
  0 <= mLcdBacklight_second l ->
  exists v,
    setLcdBacklight s l = Some (tt, l, [mkWrite LcdBacklight (to_string v)]) /\
    0 <= v <= mLcdBacklight_second l /\ v <= 16843009.
Proof.
  intros Hmax. rewrite setLcdBacklight_run.
  pose proof (luma_range (color s)) as Hl.
  eexists. split; [reflexivity |].
  destruct (Z.eqb_spec (mLcdBacklight_second l) 255) as [E | E].
  - rewrite E. lia.
  - unfold UInt32.mul, UInt32.wrap, UInt32.modulus.
    set (m := mLcdBacklight_second l) in *.
    pose proof (Z.mod_pos_bound (luma (color s) * m) 4294967296 eq_refl) as Hb.
    rewrite Z.quot_div_nonneg by lia.
    assert (Hq : 0 <= (luma (color s) * m) mod 4294967296 / 255 <= 16843009).
    { split; [apply Z.div_pos; lia | apply Z.div_le_upper_bound; lia]. }
    destruct (Z.le_gt_cases m 16843009) as [Hs | Hbig]; [| lia].
    rewrite Z.mod_small in * by nia.
    assert (luma (color s) * m / 255 <= m)
      by (apply Z.div_le_upper_bound; nia).
    lia.
Qed.

Lemma backlight_never_exceeds_maximum_witness :
  0 <= mLcdBacklight_second (sample_light 4095) /\
  exists v,
    setLcdBacklight (mkLightState 0x00808080 NONE 0 0) (sample_light 4095)
      = Some (tt, sample_light 4095,
              [mkWrite LcdBacklight (to_string v)]) /\
    0 <= v <= mLcdBacklight_second (sample_light 4095) /\ v <= 16843009.
Proof.
  assert (H : 0 <= mLcdBacklight_second (sample_light 4095))
    by (cbn; lia).
  split; [exact H |].
  exact (backlight_never_exceeds_maximum
           (mkLightState 0x00808080 NONE 0 0) (sample_light 4095) H).
Defined.

(** X9.  The alpha byte and the flash fields play no part in [isLit],
    in [rgbToBrightness] or in the backlight path: two states whose
    colours agree on the lower 24 bits are lit or not together, have
    the same luma and make [setLcdBacklight] write the same line. *)
Theorem alpha_ignored_by_backlight_and_isLit (s s' : LightState) (l : Light) :
  color s mod 16777216 = color s' mod 16777216 ->
  isLit s = isLit s' /\
  rgbToBrightness s = rgbToBrightness s' /\
  setLcdBacklight s l = setLcdBacklight s' l.
Proof.
  intros E.
  assert (Hb : rgbToBrightness s = rgbToBrightness s').
  { unfold rgbToBrightness. now rewrite !low24_mod, E. }
  split; [unfold isLit; now rewrite !low24_mod, E |].
  split; [exact Hb |].
  unfold setLcdBacklight, bind, get. now rewrite Hb.
Qed.

Lemma alpha_ignored_by_backlight_and_isLit_witness :
  color (mkLightState 0x10A0B0C0 NONE 0 0) mod 16777216
    = color (mkLightState 0xFFA0B0C0 TIMED 100 900) mod 16777216 /\
  setLcdBacklight (mkLightState 0x10A0B0C0 NONE 0 0) (sample_light 1023)
    = setLcdBacklight (mkLightState 0xFFA0B0C0 TIMED 100 900)
        (sample_light 1023).
Proof.
  assert (H : color (mkLightState 0x10A0B0C0 NONE 0 0) mod 16777216
              = color (mkLightState 0xFFA0B0C0 TIMED 100 900) mod 16777216)
    by reflexivity.
  split; [exact H |].
  exact (proj2 (proj2 (alpha_ignored_by_backlight_and_isLit
                         (mkLightState 0x10A0B0C0 NONE 0 0)
                         (mkLightState 0xFFA0B0C0 TIMED 100 900)
                         (sample_light 1023) H))).
Defined.

Lemma byte_of_grey (alpha level : Z) :
  0 <= level <= 255 ->
  byte_of (grey alpha level) 2 = level /\
  byte_of (grey alpha level) 1 = level /\
  byte_of (grey alpha level) 0 = level.
Proof.
  intros Hv. unfold byte_of, grey.
  change (2 ^ (8 * 2)) with 65536. change (2 ^ (8 * 1)) with 256.
  change (2 ^ (8 * 0)) with 1.
  repeat split.
  - replace (alpha * 16777216 + level * 65536 + level * 256 + level)
      with ((level * 256 + level) + (alpha * 256 + level) * 65536) by lia.
    rewrite Z.div_add by lia. rewrite (Z.div_small (level * 256 + level)) by lia.
    replace (0 + (alpha * 256 + level)) with (level + alpha * 256) by lia.
    rewrite Z.mod_add by lia. apply Z.mod_small; lia.
  - replace (alpha * 16777216 + level * 65536 + level * 256 + level)
      with (level + (alpha * 65536 + level * 256 + level) * 256) by lia.
    rewrite Z.div_add by lia. rewrite (Z.div_small level) by lia.
    replace (0 + (alpha * 65536 + level * 256 + level))
      with (level + (alpha * 256 + level) * 256) by lia.
    rewrite Z.mod_add by lia. apply Z.mod_small; lia.
  - rewrite Z.div_1_r.
    replace (alpha * 16777216 + level * 65536 + level * 256 + level)
      with (level + (alpha * 65536 + level * 256 + level) * 256) by lia.
    rewrite Z.mod_add by lia. apply Z.mod_small; lia.
Qed.

(** X10.  The weights 77, 150 and 29 add up to 256, so a grey colour
    keeps its level: for every level in 0..255 and every alpha, the
    luma of the colour with that level in red, green and blue is the
    level itself, and with a panel maximum of 255 the backlight path
    writes exactly that level. *)
Theorem grey_level_preserved
    (alpha level : Z) (fm : Flash) (onMs offMs : Z) (l : Light) :
  0 <= level <= 255 ->
  mLcdBacklight_second l = 255 ->
  rgbToBrightness (mkLightState (grey alpha level) fm onMs offMs) = level /\
  setLcdBacklight (mkLightState (grey alpha level) fm onMs offMs) l =
    Some (tt, l, [mkWrite LcdBacklight (to_string level)]).
Proof.
  intros Hv Hmax.
  assert (Hl : luma (grey alpha level) = level).
  { unfold luma. destruct (byte_of_grey alpha level Hv) as (-> & -> & ->).
    rewrite Z.shiftr_div_pow2 by lia. change (2 ^ 8) with 256.
    replace (77 * level + 150 * level + 29 * level) with (level * 256) by lia.
    now rewrite Z.div_mul by lia. }
  split; [now rewrite rgbToBrightness_eq |].
  rewrite setLcdBacklight_run, Hmax. cbn [color Z.eqb Pos.eqb].
  now rewrite Hl.
Qed.

Lemma grey_level_preserved_witness :
  0 <= 128 <= 255 /\
  mLcdBacklight_second (sample_light 255) = 255 /\
  setLcdBacklight (mkLightState 0xFF808080 NONE 0 0) (sample_light 255)
    = Some (tt, sample_light 255, [mkWrite LcdBacklight "128"]).
Proof.
  assert (H : 0 <= 128 <= 255) by lia.
  split; [exact H | split; [reflexivity |]].
  exact (proj2 (grey_level_preserved 255 128 NONE 0 0 (sample_light 255)
                  H eq_refl)).
Defined.

(** X11.  Alpha never brightens: for every colour the values that
    [setSpeakerLightLocked] drives the red, green and blue channels
    with are at least 0 and at most the red, green and blue bytes of the
    colour, hence never above 255. *)
Theorem alpha_never_brightens (s : LightState) :
  exists red green blue,
    setSpeakerLightLocked_rgb s = Some (red, green, blue) /\
    0 <= red <= byte_of (color s) 2 /\
    0 <= green <= byte_of (color s) 1 /\
    0 <= blue <= byte_of (color s) 0 /\
    red <= 255 /\ green <= 255 /\ blue <= 255.
Proof.
  rewrite setSpeakerLightLocked_rgb_eq. unfold scaled_rgb.
  pose proof (byte_of_range (color s) 3) as Ha.
  pose proof (byte_of_range (color s) 2) as Hr.
  pose proof (byte_of_range (color s) 1) as Hg.
  pose proof (byte_of_range (color s) 0) as Hb.
  assert (D : forall x a, 0 <= x <= 255 -> 0 <= a <= 255 ->
                          0 <= x * a / 255 <= x).
  { intros x a Hx Haa. split; [apply Z.div_pos; nia |].
    apply Z.div_le_upper_bound; nia. }
  destruct (byte_of (color s) 3 =? 255).
  - do 3 eexists. split; [reflexivity |]. lia.
  - do 3 eexists. split; [reflexivity |].
    pose proof (D _ _ Hr Ha). pose proof (D _ _ Hg Ha). pose proof (D _ _ Hb Ha).
    lia.
Qed.

(** * Shape of the ramp *)

(** X12.  For every brightness in 0..255 the duty-cycle list that
    [getScaledDutyPcts] returns is the text of eight numbers that
    ascend, lie between 0 and 100, start at 0 and end at
    [100 * brightness / 255]; and a larger brightness never gives a
    smaller entry at any position. *)
Theorem duty_ramp_is_ascending (b b' : Z) :
  0 <= b <= b' -> b' <= 255 ->
  getScaledDutyPcts b =
    Some (String.concat "," (map to_string (duty_values b))) /\
  Sorted Z.le (duty_values b) /\
  Forall (fun v => 0 <= v <= 100) (duty_values b) /\
  hd 0 (duty_values b) = 0 /\
  last (duty_values b) 0 = 100 * b / 255 /\
  Forall2 Z.le (duty_values b) (duty_values b').
Proof.
  intros Hb Hb'.
  assert (M : forall c c' x x', 0 <= c <= c' -> 0 <= x <= x' ->
                                c * x / 255 <= c' * x' / 255).
  { intros. apply Z.div_le_mono; nia. }
  assert (R : forall c, 0 <= c <= 100 -> 0 <= c * b / 255 <= 100).
  { intros c Hc. split; [apply Z.div_pos; nia |].
    apply Z.div_le_upper_bound; nia. }
  split.
  { rewrite getScaledDutyPcts_eq, duty_line_truncated by lia. reflexivity. }
  unfold duty_values, BRIGHTNESS_RAMP. cbn [map hd last].
  split.
  { repeat (constructor; try (apply M; lia)). }
  split.
  { repeat (constructor; try (apply R; lia)). }
  split; [reflexivity |].
  split; [reflexivity |].
  repeat (constructor; try (apply M; lia)).
Qed.

Lemma duty_ramp_is_ascending_witness :
  0 <= 100 <= 200 /\ 200 <= 255 /\
  getScaledDutyPcts 100 = Some "0,4,9,14,19,28,33,39"%string /\
  duty_values 100 = [0; 4; 9; 14; 19; 28; 33; 39] /\
  duty_values 200 = [0; 9; 19; 29; 39; 56; 66; 78].
Proof.
  assert (H1 : 0 <= 100 <= 200) by lia.
  assert (H2 : 200 <= 255) by lia.
  split; [exact H1 | split; [exact H2 |]].
  split; [exact (proj1 (duty_ramp_is_ascending 100 200 H1 H2)) |].
  split; reflexivity.
Defined.

(** X13.  For every on-time from 0 up to the largest [int], the ramp
    fits the on-time: the step duration is between 0 and 50, pause-high
    is not negative, and sixteen steps plus pause-high take at most the
    on-time and miss it by less than 16 ms; from 800 ms on they take
    exactly the on-time. *)
Theorem ramp_fits_on_time (onMs : Z) :
  0 <= onMs <= Int.max_signed ->
  exists stepDuration pauseHi,
    Led_setBlink_timing onMs = Some (stepDuration, pauseHi) /\
    0 <= stepDuration <= RAMP_STEP_DURATION /\
    0 <= pauseHi /\
    onMs - 16 < RAMP_SIZE * 2 * stepDuration + pauseHi <= onMs /\
    (800 <= onMs -> RAMP_SIZE * 2 * stepDuration + pauseHi = onMs).
Proof.
  intros Hon. rewrite Led_setBlink_timing_eq.
  unfold RAMP_STEP_DURATION, RAMP_SIZE, Int.max_signed in *.
  destruct (Z.gtb_spec 800 onMs) as [Hlt | Hge].
  - do 2 eexists. split; [reflexivity |].
    rewrite Z.quot_div_nonneg by lia.
    pose proof (Z.div_mod onMs 16 ltac:(lia)).
    pose proof (Z.mod_pos_bound onMs 16 eq_refl).
    lia.
  - do 2 eexists. split; [reflexivity |].
    rewrite Int_wrap_in_range by int_range. lia.
Qed.

Lemma ramp_fits_on_time_witness :
  0 <= 500 <= Int.max_signed /\
  exists stepDuration pauseHi,
    Led_setBlink_timing 500 = Some (stepDuration, pauseHi) /\
    0 <= stepDuration <= RAMP_STEP_DURATION /\
    0 <= pauseHi /\
    500 - 16 < RAMP_SIZE * 2 * stepDuration + pauseHi <= 500 /\
    (800 <= 500 -> RAMP_SIZE * 2 * stepDuration + pauseHi = 500).
Proof.
  assert (H : 0 <= 500 <= Int.max_signed)
    by (unfold Int.max_signed; lia).
  split; [exact H | exact (ramp_fits_on_time 500 H)].
Defined.

(** X14.  A negative on-time is not rejected: [setBlink] takes the
    branch of a short on-time and computes pause-high 0 and the step
    duration [onMs / 16] truncated toward zero, which is zero or
    negative; sixteen such steps lie between the on-time and the
    on-time plus 16. *)
Theorem negative_on_time_is_not_rejected (onMs : Z) :
  Int.min_signed <= onMs < 0 ->
  Led_setBlink_timing onMs = Some (Z.quot onMs 16, 0) /\
  Z.quot onMs 16 <= 0 /\
  onMs <= 16 * Z.quot onMs 16 < onMs + 16.
Proof.
  intros Hon. rewrite Led_setBlink_timing_eq.
  destruct (Z.gtb_spec 800 onMs) as [Hlt | Hge]; [| lia].
  split; [reflexivity |].
  pose proof (Z.quot_rem' onMs 16) as E.
  pose proof (Z.rem_bound_pos_neg onMs 16 ltac:(lia) ltac:(lia)) as B.
  lia.
Qed.

Lemma negative_on_time_is_not_rejected_witness :
  Int.min_signed <= -100 < 0 /\
  Led_setBlink_timing (-100) = Some (-6, 0).
Proof.
  assert (H : Int.min_signed <= -100 < 0)
    by (unfold Int.min_signed; lia).
  split; [exact H | exact (proj1 (negative_on_time_is_not_rejected (-100) H))].
Defined.

(** * Validity of a [Led] *)

(** X15.  The two validity operators of [Led] agree: [operator!] is
    the negation of [operator bool] for every state of the seven
    streams, and [operator bool] holds exactly when all seven streams
    are good. *)
Theorem Led_validity_operators_agree (self : LedStreams) :
  Led_operator_not self = negb (Led_operator_bool self) /\
  (Led_operator_bool self = true <->
   mBrightness self = true /\ mDutyPcts self = true /\
   mStartIdx self = true /\ mPauseLo self = true /\
   mPauseHi self = true /\ mRampStepMs self = true /\
   mBlink self = true).
Proof.
  destruct self as [a b c d e f g].
  unfold Led_operator_not, Led_operator_bool. cbn.
  split.
  - destruct a, b, c, d, e, f, g; reflexivity.
  - rewrite !andb_true_iff. tauto.
Qed.

(** * The supported roles *)

Lemma LightType_eqb_eq (a b : LightType) : LightType_eqb a b = true <-> a = b.
Proof. split; [destruct a, b; (reflexivity || discriminate) | intros <-; now destruct a]. Qed.

Lemma push_back_keys (m : list (LightType * Handler)) (acc : list LightType) :
  fold_left (fun types light => types ++ [fst light]) m acc = acc ++ map fst m.
Proof.
  revert acc. induction m as [| kv m IH]; intros acc; cbn [fold_left map].
  - now rewrite app_nil_r.
  - rewrite IH, <- app_assoc. reflexivity.
Qed.

Lemma find_some_iff (type : LightType) (m : list (LightType * Handler)) :
  (exists h, find type m = Some h) <-> In type (map fst m).
Proof.
  induction m as [| [k h] m IH]; cbn [find map In fst].
  - split; [intros [h H]; discriminate | intros []].
  - destruct (LightType_eqb k type) eqn:E.
    + apply LightType_eqb_eq in E. split; [now left | now exists h].
    + rewrite IH. split; [now right | intros [Hk | Hin]; [| exact Hin]].
      apply LightType_eqb_eq in Hk. congruence.
Qed.

(** X16.  [getSupportedTypes] and [setLight] agree on every object:
    [getSupportedTypes] leaves the object as it is, writes nothing, and
    reports exactly the roles for which [setLight] returns SUCCESS; for
    every role it does not report, [setLight] returns
    LIGHT_NOT_SUPPORTED, writes nothing and leaves the object as it
    is. *)
Theorem getSupportedTypes_matches_setLight (l : Light) :
  exists types,
    getSupportedTypes l = Some (types, l, []) /\
    forall type s,
      (In type types ->
         exists l' ws, setLight type s l = Some (SUCCESS, l', ws)) /\
      (~ In type types ->
         setLight type s l = Some (LIGHT_NOT_SUPPORTED, l, [])).
Proof.
  exists (map fst (mLights l)). split.
  - unfold getSupportedTypes, bind, get, ret. now rewrite push_back_keys.
  - intros type s. split.
    + intros Hin. apply find_some_iff in Hin as [h Hf].
      rewrite (setLight_found _ _ _ h Hf).
      destruct (call_total h s l) as (l' & ws & E & _). rewrite E.
      now exists l', ws.
    + intros Hnot. apply setLight_not_found.
      destruct (find type (mLights l)) as [h |] eqn:Hf; [| reflexivity].
      elim Hnot. apply find_some_iff. now exists h.
Qed.

(** X17.  On an object with the roles of the constructor,
    [getSupportedTypes] reports four roles without repetition, and a
    role is among them exactly when it is ATTENTION, BACKLIGHT, BATTERY
    or NOTIFICATIONS. *)
Theorem getSupportedTypes_registered (l : Light) :
  mLights l = Light_ctor_mLights ->
  exists types,
    getSupportedTypes l = Some (types, l, []) /\
    NoDup types /\ List.length types = 4%nat /\
    forall type, In type types <-> supported type = true.
Proof.
  intros Hreg.
  exists [ATTENTION; BACKLIGHT; BATTERY; NOTIFICATIONS]. split.
  - unfold getSupportedTypes, bind, get, ret. now rewrite Hreg.
  - split.
    { repeat constructor; cbn [In]; intuition discriminate. }
    split; [reflexivity |].
    intros type. cbn [In]. split.
    + intros [<- | [<- | [<- | [<- | []]]]]; reflexivity.
    + destruct type; intros H; try discriminate H; tauto.
Qed.

Lemma getSupportedTypes_registered_witness :
  mLights (sample_light 255) = Light_ctor_mLights /\
  exists types,
    getSupportedTypes (sample_light 255)
      = Some (types, sample_light 255, []) /\
    NoDup types /\ List.length types = 4%nat /\
    forall type, In type types <-> supported type = true.
Proof.
  split; [reflexivity |].
  exact (getSupportedTypes_registered (sample_light 255) eq_refl).
Defined.

(** * Files of the LED streams *)

Lemma append_cancel_l (p x y : string) :
  (p ++ x = p ++ y)%string -> x = y.
Proof.
  induction p as [| c p IH]; cbn [String.append]; intros H.
  - exact H.
  - injection H as H. now apply IH.
Qed.

Lemma has_slash_append (x y : string) :
  has_slash (x ++ String "/" y) = true.
Proof.
  induction x as [| c x IH]; cbn [String.append has_slash].
  - reflexivity.
  - rewrite IH. apply orb_true_r.
Qed.

Lemma last_component_unique (n n' x x' : string) :
  has_slash x = false -> has_slash x' = false ->
  (n ++ String "/" x = n' ++ String "/" x')%string ->
  n = n' /\ x = x'.
Proof.
  revert n'. induction n as [| c n IH]; intros [| c' n'];
    cbn [String.append]; intros Hx Hx' H.
  - injection H as H. now split.
  - injection H as _ H. rewrite H, has_slash_append in Hx. discriminate.
  - injection H as _ H. rewrite <- H, has_slash_append in Hx'. discriminate.
  - injection H as Hc H. destruct (IH n' Hx Hx' H) as [-> ->].
    now rewrite Hc.
Qed.

Lemma attr_file_shape (attr : LedAttr) :
  exists x, attr_file attr = String "/" x /\ has_slash x = false.
Proof. destruct attr; eexists; split; reflexivity. Qed.

Lemma attr_file_inj (a a' : LedAttr) : attr_file a = attr_file a' -> a = a'.
Proof. destruct a, a'; intros H; (reflexivity || discriminate H). Qed.

Lemma Led_ctor_path_inj (name name' : string) (attr attr' : LedAttr) :
  Led_ctor_path name attr = Led_ctor_path name' attr' ->
  name = name' /\ attr = attr'.
Proof.
  unfold Led_ctor_path. intros H.
  destruct (attr_file_shape attr) as (x & Ex & Hx).
  destruct (attr_file_shape attr') as (x' & Ex' & Hx').
  rewrite Ex, Ex' in H.
  apply last_component_unique in H as [Hn Hxx]; [| exact Hx | exact Hx'].
  apply append_cancel_l in Hn. split; [exact Hn |].
  apply attr_file_inj. now rewrite Ex, Ex', Hxx.
Qed.

(** X18.  The constructor of [Led] opens its streams on pairwise
    different path strings: two streams that differ in the name of the
    LED or in the attribute are opened with different strings.  In
    particular the seven streams of one [Led] get seven different
    strings.  This is about the strings handed to [open], not about what
    the file system makes of them. *)
Theorem Led_stream_paths_differ
    (name name' : string) (attr attr' : LedAttr) :
  name <> name' \/ attr <> attr' ->
  Led_ctor_path name attr <> Led_ctor_path name' attr'.
Proof.
  intros Hd E. apply Led_ctor_path_inj in E as [En Ea].
  destruct Hd as [Hn | Ha]; [exact (Hn En) | exact (Ha Ea)].
Qed.

Lemma Led_stream_paths_differ_witness :
  ("red"%string <> "red"%string \/ brightness <> blink) /\
  "/sys/class/leds/red/brightness"%string
    <> "/sys/class/leds/red/blink"%string.
Proof.
  assert (H : "red"%string <> "red"%string \/ brightness <> blink)
    by (right; discriminate).
  split; [exact H |].
  exact (Led_stream_paths_differ "red" "red" brightness blink H).
Defined.

(** * Values that reach the LED attributes *)

Lemma scaled_rgb_bounds (c : Z) :
  exists r g b,
    scaled_rgb c = (r, g, b) /\
    0 <= r <= 255 /\ 0 <= g <= 255 /\ 0 <= b <= 255.
Proof.
  unfold scaled_rgb.
  pose proof (byte_of_range c 3) as Ha. pose proof (byte_of_range c 2) as Hr.
  pose proof (byte_of_range c 1) as Hg. pose proof (byte_of_range c 0) as Hb.
  assert (D : forall x a, 0 <= x <= 255 -> 0 <= a <= 255 ->
                          0 <= x * a / 255 <= 255).
  { intros x a Hx Haa. split; [apply Z.div_pos; nia |].
    apply Z.div_le_upper_bound; nia. }
  destruct (byte_of c 3 =? 255); do 3 eexists; (split; [reflexivity |]).
  - lia.
  - pose proof (D _ _ Hr Ha). pose proof (D _ _ Hg Ha). pose proof (D _ _ Hb Ha).
    lia.
Qed.

(** What a line says when it goes to a brightness or to a duty-cycle
    attribute: the text of a level in 0..255, or the list of the ramp
    entries of such a level. *)
Lemma led_line_in_range_steady (self : Led) (v : Z) (w : Write) (name : string) :
  0 <= v <= 255 ->
  In w (steady_lines self v) ->
  (target w = LedStream name brightness ->
     exists x, 0 <= x <= 255 /\ text w = to_string x) /\
  (target w = LedStream name duty_pcts ->
     exists x, 0 <= x <= 255 /\
       text w = String.concat "," (map to_string (duty_values x))).
Proof.
  intros Hv. unfold steady_lines. cbn [In].
  intros [<- | [<- | []]]; cbn [target text]; split; intros E;
    try discriminate E.
  exists v. now split.
Qed.

Lemma led_line_in_range_blink
    (self : Led) (v onMs offMs : Z) (w : Write) (name : string) :
  0 <= v <= 255 ->
  In w (blink_lines self v onMs offMs) ->
  (target w = LedStream name brightness ->
     exists x, 0 <= x <= 255 /\ text w = to_string x) /\
  (target w = LedStream name duty_pcts ->
     exists x, 0 <= x <= 255 /\
       text w = String.concat "," (map to_string (duty_values x))).
Proof.
  intros Hv. unfold blink_lines. cbn [In].
  intros [<- | [<- | [<- | [<- | [<- | []]]]]]; cbn [target text];
    split; intros E; try discriminate E.
  exists v. split; [exact Hv |].
  rewrite duty_line_truncated by exact Hv. reflexivity.
Qed.

Lemma led_line_in_range_applied
    (l : Light) (s : LightState) (w : Write) (name : string) :
  In w (applied_lines l s) ->
  (target w = LedStream name brightness ->
     exists x, 0 <= x <= 255 /\ text w = to_string x) /\
  (target w = LedStream name duty_pcts ->
     exists x, 0 <= x <= 255 /\
       text w = String.concat "," (map to_string (duty_values x))).
Proof.
  unfold applied_lines.
  destruct (scaled_rgb_bounds (color s)) as (r & g & b & -> & Hr & Hg & Hb).
  unfold drive_lines. intros [<- | Hw]; [split; discriminate |].
  destruct (flashMode s).
  - apply in_app_or in Hw as [Hw | Hw];
      [| apply in_app_or in Hw as [Hw | Hw]];
      eapply led_line_in_range_steady; try exact Hw; assumption.
  - apply in_app_or in Hw as [Hw | Hw];
      [| apply in_app_or in Hw as [Hw | Hw]];
      [| | apply in_app_or in Hw as [Hw | Hw]];
      try (eapply led_line_in_range_blink; try exact Hw; assumption).
    destruct Hw as [<- | []]. split; discriminate.
  - apply in_app_or in Hw as [Hw | Hw];
      [| apply in_app_or in Hw as [Hw | Hw]];
      eapply led_line_in_range_steady; try exact Hw; assumption.
Qed.

Lemma led_line_in_range_effective (l : Light) (w : Write) (name : string) :
  In w (effective_lines l) ->
  (target w = LedStream name brightness ->
     exists x, 0 <= x <= 255 /\ text w = to_string x) /\
  (target w = LedStream name duty_pcts ->
     exists x, 0 <= x <= 255 /\
       text w = String.concat "," (map to_string (duty_values x))).
Proof.
  unfold effective_lines.
  destruct (lit24 (color (mNotificationState l)));
    [apply led_line_in_range_applied |].
  destruct (lit24 (color (mAttentionState l)));
    [apply led_line_in_range_applied |].
  destruct (lit24 (color (mBatteryState l)));
    [apply led_line_in_range_applied |].
  unfold off_lines. intros Hw.
  apply in_app_or in Hw as [Hw | Hw];
    [| apply in_app_or in Hw as [Hw | Hw]];
    eapply led_line_in_range_steady; try exact Hw; lia.
Qed.

(** X19.  On an object with the roles of the constructor, whatever the
    colour, flash mode and periods of a request for ATTENTION, BATTERY
    or NOTIFICATIONS, every line it sends to a brightness attribute is
    a level between 0 and 255, and every line it sends to a duty-cycle
    attribute is the list of the truncated ramp entries
    [curve[i] * level / 255] of a level between 0 and 255; the product
    in [getScaledDutyPcts] therefore never leaves the range of [int]. *)
Theorem rgb_request_levels_in_range
    (type : LightType) (s : LightState) (l : Light) :
  mLights l = Light_ctor_mLights ->
  shares_led type = true ->
  exists l' ws,
    setLight type s l = Some (SUCCESS, l', ws) /\
    forall w name, In w ws ->
      (target w = LedStream name brightness ->
         exists x, 0 <= x <= 255 /\ text w = to_string x) /\
      (target w = LedStream name duty_pcts ->
         exists x, 0 <= x <= 255 /\
           text w = String.concat "," (map to_string (duty_values x))).
Proof.
  intros Hreg Hrole.
  exists (store type s l), (effective_lines (store type s l)).
  split; [now apply setLight_rgb_run |].
  intros w name. apply led_line_in_range_effective.
Qed.

Lemma rgb_request_levels_in_range_witness :
  mLights (sample_light 255) = Light_ctor_mLights /\
  shares_led NOTIFICATIONS = true /\
  exists l' ws,
    setLight NOTIFICATIONS (mkLightState 0x80FF8040 TIMED 300 700)
      (sample_light 255) = Some (SUCCESS, l', ws) /\
    forall w name, In w ws ->
      (target w = LedStream name brightness ->
         exists x, 0 <= x <= 255 /\ text w = to_string x) /\
      (target w = LedStream name duty_pcts ->
         exists x, 0 <= x <= 255 /\
           text w = String.concat "," (map to_string (duty_values x))).
Proof.
  split; [reflexivity | split; [reflexivity |]].
  exact (rgb_request_levels_in_range NOTIFICATIONS
           (mkLightState 0x80FF8040 TIMED 300 700) (sample_light 255)
           eq_refl eq_refl).
Defined.
